(** * FawltyDeps: declared-dependency extraction and reconciliation

    A shallow embedding of the requirements, setup.py and pyproject.toml
    parsers of [fawltydeps/extract_dependencies.py] and of the comparison
    exercised by [tests/test_compare_imports_to_dependencies.py], followed
    by the properties of both. A generator is modelled by what it has
    yielded and logged when it ends and by the exception that ended it;
    the parsers of Python source and of TOML are outside the module, so
    the functions here start from the parsed tree and the decoded
    document. *)

From Stdlib Require Import List String Ascii Bool Arith Lia.
Import ListNotations.
Local Open Scope string_scope.
Local Open Scope list_scope.

Set Implicit Arguments.
Set Warnings "-register-all".  (* nested inductive types below *)

(* ================================================================== *)
(** * Records of [fawltydeps.types]

    The records are built in the test-suite as
    [Location(Path("my_file.py"), lineno=3)], [Location("<stdin>")],
    [ParsedImport(name, location)], [DeclaredDependency(name, location)],
    [UndeclaredDependency(name, [imports])] and
    [UnusedDependency(name, [deps])]. *)

Definition Path := string.

Inductive Source : Type :=
| File (p : Path)
| Special (marker : string).

Record Location : Type := mkLocation
  { path : Source;
    lineno : option nat }.

Record ParsedImport : Type := mkParsedImport
  { import_name : string;
    import_location : Location }.

Record DeclaredDependency : Type := mkDeclaredDependency
  { dep_name : string;
    dep_location : Location }.

Record UndeclaredDependency : Type := mkUndeclaredDependency
  { undeclared_name : string;
    undeclared_references : list ParsedImport }.

Record UnusedDependency : Type := mkUnusedDependency
  { unused_name : string;
    unused_references : list DeclaredDependency }.

(* ================================================================== *)
(** * Insertion-ordered mappings

    A Python [dict] with string keys, as the list of its items in
    insertion order. *)

Fixpoint lookup {V} (k : string) (entries : list (string * V)) : option V :=
  match entries with
  | [] => None
  | (k', v) :: rest => if String.eqb k' k then Some v else lookup k rest
  end.

(* ================================================================== *)
(** * Reconciliation engine *)

Module Check.

Section Grouping.
Variable A : Type.
Variable key : A -> string.

(** An insertion-ordered mapping from names to occurrences, as an
    association list: a new name goes to the end, a known name gets the
    occurrence appended to its group. *)
Fixpoint group_insert (n : string) (x : A) (m : list (string * list A))
  : list (string * list A) :=
  match m with
  | [] => [(n, [x])]
  | (k, occ) :: m' =>
      if String.eqb k n then (k, occ ++ [x]) :: m'
      else (k, occ) :: group_insert n x m'
  end.

(** Modelled from the spec: steps 1 and 2 of the reconciliation algorithm
    (the function lives in [fawltydeps/check.py], which is not among the
    sources): "Group by [name] into an ordered mapping name -> occurrences,
    preserving first-seen order of distinct names." *)
Definition group_by_name (xs : list A) : list (string * list A) :=
  fold_left (fun m x => group_insert (key x) x m) xs [].

Definition keys (m : list (string * list A)) : list string := map fst m.

(** The test "this occurrence has name [k]". *)
Definition named (k : string) (x : A) : bool := String.eqb (key x) k.
End Grouping.

Definition mem (n : string) (l : list string) : bool :=
  existsb (String.eqb n) l.

(** Modelled from the spec: steps 3 and 4 of the reconciliation algorithm,
    which have one shape: "for every name in the group mapping (in its
    order) such that the name is not a key of the other group mapping and
    not a member of the ignore list: emit the name with its occurrences". *)
Definition unmatched {A} (groups : list (string * list A))
    (others ignored : list string) : list (string * list A) :=
  filter (fun g => negb (mem (fst g) others) && negb (mem (fst g) ignored))
    groups.

(** Modelled from the spec: [compare_imports_to_dependencies] of
    [fawltydeps/check.py] (not among the sources; only its test is), after
    the five steps of the reconciliation algorithm: group both inputs by
    name, report every import group whose name is neither a key of the
    declared groups nor in [ignored_undeclared], report every declared group
    whose name is neither a key of the import groups nor in
    [ignored_unused], and return the pair. The arguments are in the order
    the test passes them. *)
Definition compare_imports_to_dependencies
    (imports : list ParsedImport) (dependencies : list DeclaredDependency)
    (ignored_unused : list string) (ignored_undeclared : list string)
  : list UndeclaredDependency * list UnusedDependency :=
  let imported := group_by_name import_name imports in
  let declared := group_by_name dep_name dependencies in
  let undeclared :=
    map (fun g => mkUndeclaredDependency (fst g) (snd g))
      (unmatched imported (keys declared) ignored_undeclared) in
  let unused :=
    map (fun g => mkUnusedDependency (fst g) (snd g))
      (unmatched declared (keys imported) ignored_unused) in
  (undeclared, unused).

(** The factories of the test-suite. *)
Definition imports_factory (imports : list string) : list ParsedImport :=
  map (fun imp => mkParsedImport imp (mkLocation (Special "<stdin>") None))
    imports.

Definition deps_factory (deps : list string) : list DeclaredDependency :=
  map (fun dep => mkDeclaredDependency dep (mkLocation (File "foo") None))
    deps.

Definition undeclared_factory (deps : list string)
  : list UndeclaredDependency :=
  map (fun dep => mkUndeclaredDependency dep (imports_factory [dep])) deps.

Definition unused_factory (deps : list string) : list UnusedDependency :=
  map (fun dep => mkUnusedDependency dep (deps_factory [dep])) deps.

End Check.

(* ================================================================== *)
(** * Python values, syntax trees and generators *)

Module Py.

(** The values that reach the parsers: what [tomllib.loads] decodes and what
    [ast.literal_eval] returns for a constant. [VScalar] stands for the
    values that are neither iterable nor subscriptable and have none of the
    methods used here (integers, floats, booleans, [None], [Ellipsis],
    dates and times); its argument is the source text of the value. A
    mapping keeps its insertion order. *)
Inductive value : Type :=
| VStr (s : string)
| VBytes (b : string)
| VScalar (repr : string)
| VList (items : list value)
| VDict (entries : list (string * value)).

(** The part of [ast] the setup.py parser looks at: every node class it
    tests with [isinstance] has a constructor, every other class is
    [Other kind children] with its child nodes in field order. This is the
    tree of Python 3.8 and later, where every literal is a [Constant]. *)
Inductive ast : Type :=
| Module (body : list ast)
| Expr (value : ast)
| Call (func : ast) (args : list ast) (keywords : list (option string * ast))
| Name (id : string) (ctx : ast)
| Constant (value : value)
| List (elts : list ast) (ctx : ast)
| Dict (keys : list (option ast)) (values : list ast)
| Other (kind : string) (children : list ast).

Inductive exn : Type :=
| KeyError (key : string)
| TypeError
| AttributeError
| InvalidRequirement (line : string)
| DependencyParsingError (value : ast).

(** The ways the requirement parser can end. *)
Definition requirement_exception (e : option exn) : Prop :=
  match e with
  | None | Some TypeError | Some (InvalidRequirement _) => True
  | _ => False
  end.

(** Any end but [DependencyParsingError], which only the setup.py parser
    raises. *)
Definition no_parsing_error (e : option exn) : Prop :=
  match e with
  | Some (DependencyParsingError _) => False
  | _ => True
  end.

Inductive level : Type := DEBUG | WARNING | ERROR.

(** One constructor per logging call of the module. *)
Inductive log_record : Type :=
| LogDump (node : ast)
| LogException (exc : exn)
| LogCouldNotParse (arg : option string) (unparsed_content : ast)
| LogField (lvl : level) (action style field_type : string)
    (path_hint : Location)
| LogNoPoetry.


(** The result of evaluating an expression. *)
Inductive result (A : Type) : Type :=
| Ok (a : A)
| Raise (e : exn).
Arguments Ok {A} a.
Arguments Raise {A} e.

(** A generator consumed to its end: what it yielded, what it logged, and
    the exception that ended it, if any. *)
Record generator (A : Type) : Type := mkGenerator
  { yielded : list A;
    logged : list log_record;
    raised : option exn }.
Arguments mkGenerator {A} yielded logged raised.
Arguments yielded {A} g.
Arguments logged {A} g.
Arguments raised {A} g.

Definition pass {A} : generator A := mkGenerator [] [] None.
Definition yield {A} (x : A) : generator A := mkGenerator [x] [] None.
Definition log {A} (r : log_record) : generator A := mkGenerator [] [r] None.
Definition raise {A} (e : exn) : generator A := mkGenerator [] [] (Some e).

(** [g1] then [g2]: the second statement runs only when the first ended
    without an exception. *)
Definition seq {A} (g1 g2 : generator A) : generator A :=
  match raised g1 with
  | Some _ => g1
  | None =>
      mkGenerator (yielded g1 ++ yielded g2) (logged g1 ++ logged g2)
        (raised g2)
  end.

(** [for x in xs: body x] over a list. *)
Fixpoint for_each {A B} (xs : list B) (body : B -> generator A)
  : generator A :=
  match xs with
  | [] => pass
  | x :: rest => seq (body x) (for_each rest body)
  end.

(** [for x in g: body x] over a generator: the body runs for every item
    the generator yields, then the generator's own exception propagates. *)
Definition for_in {A B} (g : generator B) (body : B -> generator A)
  : generator A :=
  seq (mkGenerator [] (logged g) None)
    (seq (for_each (yielded g) body)
       (match raised g with Some e => raise e | None => pass end)).

(** [try: g except ...: handler]: [handler e] is [None] when no clause
    matches [e]. What [g] yielded and logged before raising is kept. *)
Definition try_except {A} (g : generator A)
    (handler : exn -> option (generator A)) : generator A :=
  match raised g with
  | None => g
  | Some e =>
      match handler e with
      | Some h => seq (mkGenerator (yielded g) (logged g) None) h
      | None => g
      end
  end.

(** Evaluate an expression inside a generator body. *)
Definition eval {A B} (r : result B) (k : B -> generator A) : generator A :=
  match r with
  | Ok b => k b
  | Raise e => raise e
  end.

Declare Scope gen_scope.
Delimit Scope gen_scope with gen.
Notation "x <- r ;; k" := (eval r (fun x => k))
  (at level 61, r at next level, right associativity) : gen_scope.
Notation "g1 ;; g2" := (seq g1 g2)
  (at level 61, right associativity) : gen_scope.

(** ** Operations on values *)

(** [v[k]] for a string [k]. *)
Definition getitem (v : value) (k : string) : result value :=
  match v with
  | VDict entries =>
      match lookup k entries with
      | Some x => Ok x
      | None => Raise (KeyError k)
      end
  | _ => Raise TypeError
  end.

(** [v.keys()] and [v.values()]. *)
Definition dict_keys (v : value) : result (list string) :=
  match v with
  | VDict entries => Ok (map fst entries)
  | _ => Raise AttributeError
  end.

Definition dict_values (v : value) : result (list value) :=
  match v with
  | VDict entries => Ok (map snd entries)
  | _ => Raise AttributeError
  end.

(** [d.get(k, default)] on a mapping. *)
Definition dict_get (entries : list (string * value)) (k : string)
    (default : value) : value :=
  match lookup k entries with
  | Some x => x
  | None => default
  end.

Definition isinstance_list (v : value) : bool :=
  match v with
  | VList _ => true
  | _ => false
  end.

(** ** Characters

    A [str] is held as its UTF-8 encoding, so that every text has a
    value: a character is one to four bytes, a first byte and the
    continuation bytes ([10xxxxxx]) it announces. [chars s] is the list of
    the characters of [s], each as the string of its bytes. *)

Definition code (c : ascii) : nat := nat_of_ascii c.

Definition between (lo hi : nat) (c : ascii) : bool :=
  Nat.leb lo (code c) && Nat.leb (code c) hi.

Definition is_code (n : nat) (c : ascii) : bool := Nat.eqb (code c) n.

Definition utf8 (bytes : list nat) : string :=
  fold_right (fun n s => String (ascii_of_nat n) s) "" bytes.

Definition is_continuation (c : ascii) : bool := between 128 191 c.

(** The number of continuation bytes the first byte [c] announces. *)
Definition announced (c : ascii) : nat :=
  if between 192 223 c then 1
  else if between 224 239 c then 2
  else if between 240 247 c then 3
  else 0.

(** [cur] with up to [n] continuation bytes that follow it. *)
Fixpoint absorb (n : nat) (cur : string) (rest : list string)
  : list string :=
  match n, rest with
  | S n', String c EmptyString :: rest' =>
      if is_continuation c
      then absorb n' (cur ++ String c EmptyString) rest'
      else cur :: rest
  | _, _ => cur :: rest
  end.

Fixpoint chars (s : string) : list string :=
  match s with
  | EmptyString => []
  | String c s' => absorb (announced c) (String c EmptyString) (chars s')
  end.

(** [''.join(characters)]. *)
Definition join (characters : list string) : string :=
  fold_right append "" characters.

(** The items of a [bytes] value, one for every byte. *)
Fixpoint octets (b : string) : list string :=
  match b with
  | EmptyString => []
  | String c b' => String c EmptyString :: octets b'
  end.

(** [iter(v)]: the items a [for] loop over [v] sees. *)
Definition iterate (v : value) : result (list value) :=
  match v with
  | VStr s => Ok (map VStr (chars s))
  | VBytes b => Ok (map VScalar (octets b))
  | VList items => Ok items
  | VDict entries => Ok (map (fun e => VStr (fst e)) entries)
  | VScalar _ => Raise TypeError
  end.

Definition is_substring (k s : string) : bool :=
  match String.index 0 k s with
  | Some _ => true
  | None => false
  end.

(** [k in v] for a string [k]. *)
Definition contains (k : string) (v : value) : result bool :=
  match v with
  | VDict entries =>
      Ok (match lookup k entries with Some _ => true | None => false end)
  | VStr s => Ok (is_substring k s)
  | VList items =>
      Ok (existsb (fun x => match x with
                            | VStr s => String.eqb k s
                            | _ => false
                            end) items)
  | VBytes _ | VScalar _ => Raise TypeError
  end.

(** ** [ast.iter_child_nodes] and [ast.walk] *)

(** The expression contexts. *)
Definition Load : ast := Other "Load" [].
Definition Store : ast := Other "Store" [].

(** The child nodes in field order. A [keyword] node is a node of its own
    in Python; it appears here as an [Other] node. *)
Definition iter_child_nodes (node : ast) : list ast :=
  match node with
  | Module body => body
  | Expr v => [v]
  | Call func args keywords =>
      func :: args ++ map (fun kw => Other "keyword" [snd kw]) keywords
  | Name _ ctx => [ctx]
  | Constant _ => []
  | List elts ctx => elts ++ [ctx]
  | Dict ks vs =>
      flat_map (fun k => match k with Some n => [n] | None => [] end) ks
      ++ vs
  | Other _ children => children
  end.

(** The number of nodes [ast.walk] has to visit below and including a
    node. *)
Fixpoint size (node : ast) : nat :=
  match node with
  | Module body => S (list_sum (map size body))
  | Expr v => S (size v)
  | Call func args keywords =>
      S (size func + list_sum (map size args)
         + list_sum (map (fun kw => match kw with
                                    | (_, v) => S (size v)
                                    end) keywords))
  | Name _ ctx => S (size ctx)
  | Constant _ => 1
  | List elts ctx => S (list_sum (map size elts) + size ctx)
  | Dict ks vs =>
      S (list_sum (map (fun k => match k with
                                 | Some n => size n
                                 | None => 0
                                 end) ks)
         + list_sum (map size vs))
  | Other _ children => S (list_sum (map size children))
  end.

(** The loop of [ast.walk]: pop the left end of the queue, append the
    node's children to the right end, yield the node. *)
Fixpoint walk_queue (fuel : nat) (todo : list ast) : list ast :=
  match fuel, todo with
  | S fuel', node :: rest =>
      node :: walk_queue fuel' (rest ++ iter_child_nodes node)
  | _, _ => []
  end.

Definition walk (node : ast) : list ast := walk_queue (size node) [node].

End Py.

(* ================================================================== *)
(** * The requirement parser of [pkg_resources]

    [pkg_resources] (setuptools) is a library the module imports, not part
    of the repository. [parse_requirements] is modelled after the
    library's

      map(Requirement, join_continuation(map(drop_comment, yield_lines(strs))))

    with the specifier grammar itself, [Requirement(line)], left as a
    parameter: [requirement_key line] is [Some key] when the line is a
    valid specifier and [None] when the constructor raises
    [InvalidRequirement]. A line is kept as the list of its characters,
    which is what [splitlines], [strip] and [item[:-2]] count in. *)

Module PkgResources.
Import Py.

Definition line : Type := list string.

(** The characters [str.isspace] holds for, which [str.strip] removes:
    U+0009 to U+000D, U+001C to U+0020, U+0085, U+00A0, U+1680, U+2000 to
    U+200A, U+2028, U+2029, U+202F, U+205F and U+3000. *)
Definition white_space : list string :=
  map utf8
    [ [9]; [10]; [11]; [12]; [13]; [28]; [29]; [30]; [31]; [32];
      [194; 133]; [194; 160]; [225; 154; 128];
      [226; 128; 128]; [226; 128; 129]; [226; 128; 130]; [226; 128; 131];
      [226; 128; 132]; [226; 128; 133]; [226; 128; 134]; [226; 128; 135];
      [226; 128; 136]; [226; 128; 137]; [226; 128; 138];
      [226; 128; 168]; [226; 128; 169]; [226; 128; 175];
      [226; 129; 159]; [227; 128; 128] ].

Definition is_space (ch : string) : bool :=
  existsb (String.eqb ch) white_space.

(** [str.splitlines] breaks lines at these (and treats CR LF as one):
    U+000A to U+000D, U+001C to U+001E, U+0085, U+2028 and U+2029. *)
Definition line_boundaries : list string :=
  map utf8
    [ [10]; [11]; [12]; [13]; [28]; [29]; [30];
      [194; 133]; [226; 128; 168]; [226; 128; 169] ].

Definition is_line_boundary (ch : string) : bool :=
  existsb (String.eqb ch) line_boundaries.

Definition CR : string := utf8 [13].
Definition LF : string := utf8 [10].

Fixpoint splitlines_from (cur : line) (s : list string) : list line :=
  match s with
  | [] => match cur with [] => [] | _ :: _ => [cur] end
  | ch :: s' =>
      if is_line_boundary ch then
        match s' with
        | ch' :: s'' =>
            if String.eqb ch CR && String.eqb ch' LF
            then cur :: splitlines_from [] s''
            else cur :: splitlines_from [] s'
        | [] => [cur]
        end
      else splitlines_from (cur ++ [ch]) s'
  end.

Definition splitlines (s : string) : list line :=
  splitlines_from [] (chars s).

Fixpoint lstrip (l : line) : line :=
  match l with
  | ch :: l' => if is_space ch then lstrip l' else l
  | [] => []
  end.

Fixpoint rstrip (l : line) : line :=
  match l with
  | ch :: l' =>
      match rstrip l' with
      | [] => if is_space ch then [] else [ch]
      | r => ch :: r
      end
  | [] => []
  end.

Definition strip (l : line) : line := rstrip (lstrip l).

(** [l.startswith(ch)] and [l.endswith(ch)] for one character. *)
Definition startswith (ch : string) (l : line) : bool :=
  match l with
  | first :: _ => String.eqb first ch
  | [] => false
  end.

Definition endswith (ch : string) (l : line) : bool :=
  String.eqb (last l "") ch.

(** [_nonblank]. *)
Definition _nonblank (l : line) : bool :=
  match l with
  | [] => false
  | _ :: _ => negb (startswith "#" l)
  end.

(** The non-empty, non-comment lines of a string, stripped. *)
Definition lines_of (s : string) : list line :=
  filter _nonblank (map strip (splitlines s)).

(** [yield_lines]: the lines of a string, or of every item of a
    (possibly nested) iterable; an item that cannot be iterated raises
    [TypeError]. *)
Fixpoint yield_lines (strs : value) : generator line :=
  match strs with
  | VStr s => mkGenerator (lines_of s) [] None
  | VBytes b => if String.eqb b "" then pass else raise TypeError
  | VScalar _ => raise TypeError
  | VList items =>
      (fix chain (l : list value) : generator line :=
         match l with
         | [] => pass
         | x :: rest => seq (yield_lines x) (chain rest)
         end) items
  | VDict entries =>
      mkGenerator (flat_map (fun e => lines_of (fst e)) entries) [] None
  end.

(** [line.partition(' #')[0]]. *)
Fixpoint drop_comment (l : line) : line :=
  match l with
  | [] => []
  | ch :: rest =>
      if String.eqb ch " " && startswith "#" rest then []
      else ch :: drop_comment rest
  end.

(** [item[:-2]]. *)
Definition drop_last2 (item : line) : line := removelast (removelast item).

(** [join_continuation]: while an item ends with a backslash it is joined
    with the next line; when there is no next line the generator
    returns. *)
Fixpoint join_from (item : line) (lines : list line) : list line :=
  if endswith "\" item then
    match lines with
    | [] => []
    | next :: rest => join_from (strip (drop_last2 item) ++ next) rest
    end
  else
    item :: match lines with
            | [] => []
            | next :: rest => join_from next rest
            end.

Definition join_continuation (lines : list line) : list line :=
  match lines with
  | [] => []
  | item :: rest => join_from item rest
  end.

(** The items [Requirement] is called on. *)
Definition requirement_lines (lines : list line) : list string :=
  map join (join_continuation (map drop_comment lines)).

Section Requirement.
Variable requirement_key : string -> option string.

(** The generator of the keys of the requirements of [strs]. It is
    lazy: the first line that is not a specifier raises before any later
    item of [strs] is looked at. *)
Definition parse_requirements (strs : value) : generator string :=
  let lines := yield_lines strs in
  seq
    (for_each (requirement_lines (yielded lines))
       (fun item =>
          match requirement_key item with
          | Some key => yield key
          | None => raise (InvalidRequirement item)
          end))
    (match raised lines with
     | Some e => raise e
     | None => pass
     end).
End Requirement.

(** ** A specifier parser to run the examples with

    The name of a specifier is a run of letters, digits, [.], [_] and [-]
    that starts and ends with a letter or digit; its key is the name with
    every run of [_] and [-] replaced by one [-], in lower case. This
    parser reads the name, checks that what follows can start the rest of a
    specifier (white space, or one of [[ ( < > = ! ~ ; @]) and reads no
    further. The lines of the examples are plain names, names with a
    version constraint, and an option line, which starts with [-] and so
    with no name. *)

Definition is_alnum (c : ascii) : bool :=
  between 48 57 c || between 65 90 c || between 97 122 c.

Definition is_name_char (c : ascii) : bool :=
  is_alnum c || is_code 45 c || is_code 46 c || is_code 95 c.

Fixpoint name_prefix (s : string) : string * string :=
  match s with
  | String c s' =>
      if is_name_char c
      then let (n, rest) := name_prefix s' in (String c n, rest)
      else ("", s)
  | EmptyString => ("", "")
  end.

Definition lower (c : ascii) : ascii :=
  if between 65 90 c then ascii_of_nat (code c + 32)
  else c.

(** [safe_name(name).lower()]. *)
Fixpoint safe_key (name : string) : string :=
  match name with
  | EmptyString => ""
  | String c rest =>
      if is_alnum c || is_code 46 c then String (lower c) (safe_key rest)
      else
        match rest with
        | String c' _ =>
            if is_alnum c' || is_code 46 c' then String "-" (safe_key rest)
            else safe_key rest
        | EmptyString => "-"
        end
  end.

Definition first_is (p : ascii -> bool) (s : string) : bool :=
  match s with
  | String c _ => p c
  | EmptyString => false
  end.

Fixpoint last_is (p : ascii -> bool) (s : string) : bool :=
  match s with
  | EmptyString => false
  | String c EmptyString => p c
  | String _ s' => last_is p s'
  end.

Definition starts_tail (c : ascii) : bool :=
  is_space (String c "")
  || existsb (fun d => is_code (code d) c)
       ["["; "("; "<"; ">"; "="; "!"; "~"; ";"; "@"]%char.

Definition name_only_key (line : string) : option string :=
  let (name, rest) := name_prefix (join (lstrip (chars line))) in
  if first_is is_alnum name && last_is is_alnum name
     && (String.eqb rest "" || first_is starts_tail rest)
  then Some (safe_key name)
  else None.

End PkgResources.

(* ================================================================== *)
(** * The lines of a requirements file

    The words the properties of the requirements parser are stated in:
    what makes a piece of text one line, a blank line, a comment line, or
    a line that holds a requirement and nothing else. *)

Module Text.
Import Py.

Definition LF : string := PkgResources.LF.











(** The items the specifier parser is called on, for a text. *)
Definition requirement_lines (text : string) : list string :=
  PkgResources.requirement_lines (PkgResources.lines_of text).

End Text.

(* ================================================================== *)
(** * [fawltydeps/extract_dependencies.py] *)

Module Extract.
Import Py.
Local Open Scope gen_scope.

Definition eq_arg (arg : option string) (s : string) : bool :=
  match arg with
  | Some a => String.eqb a s
  | None => false
  end.

Section Parsers.
(** [Requirement(line).key] of [pkg_resources], see above. *)
Variable requirement_key : string -> option string.

(** [path_hint] is annotated [Path] in the module and the test-suite
    builds the records with a [Location]; whatever is passed is stored in
    the records unchanged. *)
Variable path_hint : Location.

Definition parse_requirements_contents (text : value)
  : generator DeclaredDependency :=
  for_in (PkgResources.parse_requirements requirement_key text)
    (fun requirement => yield (mkDeclaredDependency requirement path_hint)).

(** ** setup.py *)

Definition _extract_deps_from_bottom_level_list (deps : ast)
  : generator DeclaredDependency :=
  match deps with
  | List elts _ =>
      for_each elts
        (fun element =>
           match element with
           | Constant v => parse_requirements_contents v
           | _ => pass
           end)
  | _ => raise (DependencyParsingError deps)
  end.

(** The body of the [try] statement for one keyword. *)
Definition extract_keyword (arg : option string) (value : ast)
  : generator DeclaredDependency :=
  if eq_arg arg "install_requires" then
    _extract_deps_from_bottom_level_list value
  else if eq_arg arg "extras_require" then
    match value with
    | Dict _ values =>
        log (LogDump value) ;;
        for_each values
          (fun elements =>
             log (LogDump elements) ;;
             _extract_deps_from_bottom_level_list elements)
    | _ => raise (DependencyParsingError value)
    end
  else pass.

(** The [try] statement for one keyword, with its handler. *)
Definition try_keyword (keyword : option string * ast)
  : generator DeclaredDependency :=
  try_except (extract_keyword (fst keyword) (snd keyword))
    (fun exc =>
       match exc with
       | DependencyParsingError v =>
           Some (log (LogException exc) ;;
                 log (LogCouldNotParse (fst keyword) v))
       | _ => None
       end).

Definition _extract_deps_from_setup_call (node : ast)
  : generator DeclaredDependency :=
  match node with
  | Call _ _ keywords => for_each keywords try_keyword
  | _ => raise AttributeError
  end.

Definition _is_setup_function_call (node : ast) : bool :=
  match node with
  | Expr (Call (Name id _) _ _) => String.eqb id "setup"
  | _ => false
  end.

(** The loop over [ast.walk(setup_contents)], left at the first match. *)
Fixpoint first_setup_call (nodes : list ast)
  : generator DeclaredDependency :=
  match nodes with
  | [] => pass
  | node :: rest =>
      if _is_setup_function_call node then
        match node with
        | Expr v => _extract_deps_from_setup_call v
        | _ => raise AttributeError
        end
      else first_setup_call rest
  end.

(** [setup_contents] is the tree [ast.parse] returns for the text; a
    text that does not parse raises there and never reaches the loop. *)
Definition parse_setup_contents (setup_contents : ast)
  : generator DeclaredDependency :=
  first_setup_call (walk setup_contents).

(** ** pyproject.toml *)

Definition field_parser : Type := value -> generator DeclaredDependency.

(** The [try] statement for one field, with its two handlers; it is
    the same in both styles. *)
Definition parse_field (style : string) (config : value)
    (field : string * field_parser) : generator DeclaredDependency :=
  try_except (snd field config)
    (fun exc =>
       match exc with
       | KeyError _ =>
           Some (log (LogField DEBUG "find" style (fst field) path_hint))
       | AttributeError | TypeError =>
           Some (log (LogField ERROR "parse" style (fst field) path_hint))
       | _ => None
       end).

(** The loop over [fields_parsers.items()]. *)
Definition parse_fields (style : string)
    (fields_parsers : list (string * field_parser)) (config : value)
  : generator DeclaredDependency :=
  for_each fields_parsers (parse_field style config).

Definition yield_unless_python (requirement : string)
  : generator DeclaredDependency :=
  if negb (String.eqb requirement "python")
  then yield (mkDeclaredDependency requirement path_hint)
  else pass.

End Parsers.

Module Poetry.
Section Fields.
Variable requirement_key : string -> option string.
Variable path_hint : Location.

Definition parse_main_dependencies (poetry_config : value)
  : generator DeclaredDependency :=
  dependencies <- getitem poetry_config "dependencies" ;;
  names <- dict_keys dependencies ;;
  for_each names (yield_unless_python path_hint).

Definition parse_group_dependencies (poetry_config : value)
  : generator DeclaredDependency :=
  groups <- getitem poetry_config "group" ;;
  tables <- dict_values groups ;;
  for_each tables
    (fun group =>
       dependencies <- getitem group "dependencies" ;;
       names <- dict_keys dependencies ;;
       for_each names (yield_unless_python path_hint)).

Definition parse_extra_dependencies (poetry_config : value)
  : generator DeclaredDependency :=
  extras <- getitem poetry_config "extras" ;;
  groups <- dict_values extras ;;
  for_each groups
    (fun group =>
       if isinstance_list group then
         requirements <- iterate group ;;
         for_each requirements
           (parse_requirements_contents requirement_key path_hint)
       else raise TypeError).

Definition fields_parsers : list (string * field_parser) :=
  [ ("main", parse_main_dependencies);
    ("group", parse_group_dependencies);
    ("extra", parse_extra_dependencies) ].
End Fields.
End Poetry.

Module PEP621.
Section Fields.
Variable requirement_key : string -> option string.
Variable path_hint : Location.

Definition parse_main_dependencies (parsed_contents : value)
  : generator DeclaredDependency :=
  project <- getitem parsed_contents "project" ;;
  dependencies <- getitem project "dependencies" ;;
  if isinstance_list dependencies then
    requirements <- iterate dependencies ;;
    for_each requirements
      (parse_requirements_contents requirement_key path_hint)
  else raise TypeError.

Definition parse_optional_dependencies (parsed_contents : value)
  : generator DeclaredDependency :=
  project <- getitem parsed_contents "project" ;;
  optional <- getitem project "optional-dependencies" ;;
  groups <- dict_values optional ;;
  for_each groups
    (fun group =>
       requirements <- iterate group ;;
       for_each requirements
         (parse_requirements_contents requirement_key path_hint)).

Definition fields_parsers : list (string * field_parser) :=
  [ ("main", parse_main_dependencies);
    ("optional", parse_optional_dependencies) ].
End Fields.
End PEP621.

Section Pyproject.
Variable requirement_key : string -> option string.
Variable path_hint : Location.

Definition parse_poetry_pyproject_dependencies (poetry_config : value)
  : generator DeclaredDependency :=
  parse_fields path_hint "Poetry"
    (Poetry.fields_parsers requirement_key path_hint) poetry_config.

Definition parse_pep621_pyproject_contents (parsed_contents : value)
  : generator DeclaredDependency :=
  parse_fields path_hint "PEP621"
    (PEP621.fields_parsers requirement_key path_hint) parsed_contents.

(** [parsed_contents] is the mapping [tomllib.loads] returns for the
    text; a text that is not TOML raises there. *)
Definition parse_pyproject_contents
    (parsed_contents : list (string * value))
  : generator DeclaredDependency :=
  parse_pep621_pyproject_contents (VDict parsed_contents) ;;
  (has_poetry <-
     contains "poetry" (dict_get parsed_contents "tool" (VDict [])) ;;
   if has_poetry then
     tool <- getitem (VDict parsed_contents) "tool" ;;
     poetry_config <- getitem tool "poetry" ;;
     parse_poetry_pyproject_dependencies poetry_config
   else log LogNoPoetry).
End Pyproject.

End Extract.

(* ================================================================== *)
(** * Inputs of the examples *)

Module Examples.
Import Py.

Definition LF : string := String "010" "".

Definition requirements_txt : Location :=
  mkLocation (File "requirements.txt") None.
Definition setup_py : Location := mkLocation (File "setup.py") None.
Definition pyproject_toml : Location :=
  mkLocation (File "pyproject.toml") None.

Definition dep (name : string) (location : Location) : DeclaredDependency :=
  mkDeclaredDependency name location.

(** Three lines, the last a comment. *)
Definition commented_requirements : string :=
  "pandas" ++ LF ++ "numpy>=1.0" ++ LF ++ "# comment" ++ LF.

(** Three lines, the second an option of the requirements-file format. *)
Definition requirements_with_option : string :=
  "pandas" ++ LF ++ "-r other.txt" ++ LF ++ "numpy" ++ LF.


(** A blank line of a space, a tab and a no-break space; a comment line,
    indented; a comment after a requirement; a requirement continued on
    the next line. *)
Definition TAB : string := String "009" "".
Definition NBSP : string := utf8 [194; 160].

Definition requirements_with_all : string :=
  "pandas" ++ LF
  ++ " " ++ TAB ++ NBSP ++ LF
  ++ "  # tools" ++ LF
  ++ "numpy>=1.0 # arrays" ++ LF
  ++ "scipy \" ++ LF
  ++ ">=1.2" ++ LF.

Definition str (s : string) : ast := Constant (VStr s).

(** The statement [setup(k1=v1, ...)]. *)
Definition setup_statement (keywords : list (option string * ast)) : ast :=
  Expr (Call (Name "setup" Load) [] keywords).

(** [setup(install_requires=["a", "b>=2"])] *)
Definition plain_setup : ast :=
  Module [ setup_statement
             [(Some "install_requires", List [str "a"; str "b>=2"] Load)] ].

(** [[
from setuptools import setup
if __name__ == "__main__":
    setup(install_requires=["a", "b>=2"])
]] *)
Definition guarded_setup : ast :=
  Module
    [ Other "ImportFrom" [Other "alias" []];
      Other "If"
        [ Other "Compare" [Name "__name__" Load; Other "Eq" []; str "__main__"];
          setup_statement
            [(Some "install_requires", List [str "a"; str "b>=2"] Load)] ] ].

(** [result = setup(install_requires=["a"])] *)
Definition assigned_setup : ast :=
  Module
    [ Other "Assign"
        [ Name "result" Store;
          Call (Name "setup" Load) []
            [(Some "install_requires", List [str "a"] Load)] ] ].

(** [setup(install_requires=compute_deps())] *)
Definition computed_setup : ast :=
  Module [ setup_statement
             [(Some "install_requires", Call (Name "compute_deps" Load) [] [])] ].

(** [setup(extras_require={"a": ["x"], "b": compute(), "c": ["y"]},
          install_requires=["z"])] *)
Definition computed_extra : ast := Call (Name "compute" Load) [] [].



(** [setup(install_requires=[5, "a"])] *)
Definition setup_with_number : ast :=
  Module [ setup_statement
             [(Some "install_requires",
               List [Constant (VScalar "5"); str "a"] Load)] ].

(** [[
[tool.poetry.dependencies]
python = "^3.8"
requests = "^2"
]] *)
Definition poetry_main_only : list (string * value) :=
  [ ("tool",
     VDict [ ("poetry",
              VDict [ ("dependencies",
                       VDict [ ("python", VStr "^3.8");
                               ("requests", VStr "^2") ]) ]) ]) ].

(** [[
[project]
dependencies = ["a", "==1"]
[tool.poetry.dependencies]
python = "^3.8"
requests = "^2"
]] *)
Definition poetry_after_invalid_requirement : list (string * value) :=
  [ ("project", VDict [("dependencies", VList [VStr "a"; VStr "==1"])]);
    ("tool",
     VDict [ ("poetry",
              VDict [ ("dependencies",
                       VDict [ ("python", VStr "^3.8");
                               ("requests", VStr "^2") ]) ]) ]) ].

(** [[
[tool.poetry.dependencies]
python = "^3.8"
requests = "^2"
[tool.poetry.extras]
a = ["x"]
b = "y"
]] *)
Definition poetry_with_bad_extra_items : list (string * value) :=
  [ ("dependencies",
     VDict [("python", VStr "^3.8"); ("requests", VStr "^2")]);
    ("extras", VDict [("a", VList [VStr "x"]); ("b", VStr "y")]) ].

Definition poetry_with_bad_extra : value :=
  VDict poetry_with_bad_extra_items.

(** [[
[tool.poetry.group.dev.dependencies]
pytest = "*"
[tool.poetry.group.docs]
optional = true
[tool.poetry.group.lint.dependencies]
black = "*"
[tool.poetry.extras]
a = ["x"]
]] *)
Definition poetry_with_empty_group_items : list (string * value) :=
  [ ("group",
     VDict [ ("dev", VDict [("dependencies", VDict [("pytest", VStr "*")])]);
             ("docs", VDict [("optional", VScalar "true")]);
             ("lint", VDict [("dependencies", VDict [("black", VStr "*")])])
           ]);
    ("extras", VDict [("a", VList [VStr "x"])]) ].

Definition poetry_with_empty_group : value :=
  VDict poetry_with_empty_group_items.

(** [[
[project]
dependencies = "pandas"
[project.optional-dependencies]
test = ["pytest"]
]] *)
Definition pep621_with_bad_dependencies : value :=
  VDict [ ("project",
           VDict [ ("dependencies", VStr "pandas");
                   ("optional-dependencies",
                    VDict [("test", VList [VStr "pytest"])]) ]) ].

End Examples.

(* ================================================================== *)
(** * More of [fawltydeps/extract_dependencies.py] *)

Module ExtractMore.
Import Py.

(** The keywords [_extract_deps_from_setup_call] has a branch for. *)
Definition is_requirement_keyword (keyword : option string * ast) : bool :=
  Extract.eq_arg (fst keyword) "install_requires"
  || Extract.eq_arg (fst keyword) "extras_require".

(** The keys of [group["dependencies"]] for a group table that has the
    mapping. *)
Definition group_dependency_names (group : value) : list string :=
  match group with
  | VDict table =>
      match lookup "dependencies" table with
      | Some (VDict dependencies) => map fst dependencies
      | _ => []
      end
  | _ => []
  end.

Definition has_dependencies (group : value) : bool :=
  match group with
  | VDict table =>
      match lookup "dependencies" table with
      | Some (VDict _) => true
      | _ => false
      end
  | _ => false
  end.

End ExtractMore.

(* ================================================================== *)
(** * [parse_setup_cfg_contents]

    The [ConfigParser] is the library's. The function is modelled from
    the parser object [read_string] has filled (a text it rejects raises
    there, before anything is yielded), through the three things the
    function asks of it: [section in parser], [parser.options(section)]
    and [parser.get(section, option)]. [get] interpolates the value it
    returns, which can fail also for an option that [options] lists: it
    then raises one of the [InterpolationError] classes. *)

Module SetupCfg.
Import Py.

Inductive InterpolationError : Type :=
| InterpolationSyntaxError (option section : string)
| InterpolationMissingOptionError (option section reference : string)
| InterpolationDepthError (option section : string).

(** What [parser.get(section, option)] does. *)
Inductive got : Type :=
| Value (value : string)
| Fails (e : InterpolationError).

(** The parser object: its sections, each with the list
    [parser.options(section)] returns (the defaults of the file
    included), and its [get]. *)
Record ConfigParser : Type := mkConfigParser
  { sections : list (string * list string);
    get : string -> string -> got }.

(** The two debug messages of the function, and what the requirement
    parser logs. *)
Inductive log_record : Type :=
| DepsFoundSection (section value : string)
| DepsFoundOption (section option value : string)
| FromRequirements (r : Py.log_record).

Inductive exception : Type :=
| Requirement (e : exn)
| Interpolation (e : InterpolationError).

(** A run of the function: the records yielded, the messages logged and
    the exception that ended it, if any. *)
Record run : Type := mkRun
  { yielded : list DeclaredDependency;
    logged : list log_record;
    raised : option exception }.

Definition done : run := mkRun [] [] None.
Definition debug (r : log_record) : run := mkRun [] [r] None.
Definition fail (e : InterpolationError) : run :=
  mkRun [] [] (Some (Interpolation e)).

Definition yield_from (g : generator DeclaredDependency) : run :=
  mkRun (Py.yielded g) (map FromRequirements (Py.logged g))
    (option_map Requirement (Py.raised g)).

(** One statement after the other; nothing follows an exception. *)
Definition then_ (r1 r2 : run) : run :=
  match raised r1 with
  | Some _ => r1
  | None =>
      mkRun (yielded r1 ++ yielded r2) (logged r1 ++ logged r2) (raised r2)
  end.

Fixpoint for_options (options : list string) (body : string -> run) : run :=
  match options with
  | [] => done
  | option :: rest => then_ (body option) (for_options rest body)
  end.

Definition mem (option : string) (options : list string) : bool :=
  existsb (String.eqb option) options.

Section Parser.
Variable requirement_key : string -> option string.
Variable path_hint : Location.
Variable parser : ConfigParser.

Definition parse_value (value : string) : run :=
  yield_from
    (Extract.parse_requirements_contents requirement_key path_hint
       (VStr value)).

Definition extract_section (section : string) : run :=
  match lookup section (sections parser) with
  | Some options =>
      for_options options
        (fun option =>
           match get parser section option with
           | Value value =>
               then_ (debug (DepsFoundSection section value))
                 (parse_value value)
           | Fails e => fail e
           end)
  | None => done
  end.

Definition extract_option_from_section (section option : string) : run :=
  match lookup section (sections parser) with
  | Some options =>
      if mem option options then
        match get parser section option with
        | Value value =>
            then_ (debug (DepsFoundOption section option value))
              (parse_value value)
        | Fails e => fail e
        end
      else done
  | None => done
  end.

Definition parse_setup_cfg_contents : run :=
  then_ (extract_option_from_section "options" "install_requires")
    (then_ (extract_option_from_section "options" "extras_require")
       (then_ (extract_section "options.extras_require")
          (then_ (extract_option_from_section "options" "tests_require")
             (extract_section "options.tests_require")))).
End Parser.

(** The options the function calls [get] for. *)
Definition reads (parser : ConfigParser) (section option : string) : Prop :=
  (section = "options"
   /\ In option ["install_requires"; "extras_require"; "tests_require"]
   \/ In section ["options.extras_require"; "options.tests_require"])
  /\ exists options,
       lookup section (sections parser) = Some options /\ In option options.

(** A parser given by the table of what [get] returns for every option
    of every section. *)
Definition of_table (table : list (string * list (string * got)))
  : ConfigParser :=
  mkConfigParser
    (map (fun entry => (fst entry, map fst (snd entry))) table)
    (fun section option =>
       match lookup section table with
       | Some options =>
           match lookup option options with
           | Some g => g
           | None => Value ""
           end
       | None => Value ""
       end).

(** [[
[options]
install_requires =
    pandas
    numpy>=1.0
extras_require = sphinx
setup_requires = wheel

[options.extras_require]
test = pytest

[options.tests_require]
hypothesis = hypothesis
]] *)
Definition example : ConfigParser :=
  of_table
    [ ("options",
       [ ("install_requires",
          Value (Examples.LF ++ "pandas" ++ Examples.LF ++ "numpy>=1.0")%string);
         ("extras_require", Value "sphinx");
         ("setup_requires", Value "wheel") ]);
      ("options.extras_require", [("test", Value "pytest")]);
      ("options.tests_require", [("hypothesis", Value "hypothesis")]) ].

(** [[
[options]
install_requires = pandas
extras_require = pkg @ https://host/a%20b.zip
tests_require = pytest
]]
    The [%] of the second value is followed by neither [%] nor [(]. *)
Definition example_with_percent : ConfigParser :=
  of_table
    [ ("options",
       [ ("install_requires", Value "pandas");
         ("extras_require",
          Fails (InterpolationSyntaxError "extras_require" "options"));
         ("tests_require", Value "pytest") ]) ].

Definition setup_cfg : Location := mkLocation (File "setup.cfg") None.

End SetupCfg.

(* ================================================================== *)
(** * [tests/test_real_projects.py]: what an experiment checks *)

Module RealProjects.
Import Py.

(** [Experiment]: the expectations are optional lists of names. *)
Record Experiment : Type := mkExperiment
  { name : string;
    args : list string;
    description : option string;
    imports : option (list string);
    declared_deps : option (list string);
    undeclared_deps : option (list string);
    unused_deps : option (list string) }.

(** How a check ends: it returns, an [assert] fails, or an expression
    raises. *)
Inductive verdict : Type :=
| Passed
| AssertionError
| Raised (e : exn).

(** A check with what it has printed. *)
Record checked : Type := mkChecked
  { printed : list string;
    outcome : verdict }.

(** Lists and mappings cannot be members of a set. *)
Definition hashable (v : value) : bool :=
  match v with
  | VList _ | VDict _ => false
  | _ => true
  end.

(** The members of [{imp["name"] for imp in items}], in the order they
    are added. *)
Fixpoint names_of (items : list value) : result (list value) :=
  match items with
  | [] => Ok []
  | imp :: rest =>
      match getitem imp "name" with
      | Raise e => Raise e
      | Ok v =>
          if hashable v then
            match names_of rest with
            | Ok vs => Ok (v :: vs)
            | Raise e => Raise e
            end
          else Raise TypeError
      end
  end.

(** [{imp["name"] for imp in analysis[key]}]. *)
Definition reported (analysis : value) (key : string)
  : result (list value) :=
  match getitem analysis key with
  | Raise e => Raise e
  | Ok items =>
      match iterate items with
      | Raise e => Raise e
      | Ok imps => names_of imps
      end
  end.

Definition is_name (s : string) (v : value) : bool :=
  match v with
  | VStr s' => String.eqb s s'
  | _ => false
  end.

(** [set(expected) == names] for the members [names] of a set. *)
Definition same_set (expected : list string) (names : list value) : bool :=
  forallb (fun s => existsb (is_name s) names) expected
  && forallb (fun v => existsb (fun s => is_name s v) expected) names.

(** One [if self.<field>: print(...); assert ...] statement. *)
Definition check_field (label : string) (experiment : string)
    (expected : option (list string)) (analysis : value) (key : string)
  : checked :=
  match expected with
  | Some ((_ :: _) as names) =>
      mkChecked
        [("Checking " ++ label ++ " for experiment: " ++ experiment)%string]
        match reported analysis key with
        | Raise e => Raised e
        | Ok found => if same_set names found then Passed else AssertionError
        end
  | _ => mkChecked [] Passed
  end.

(** One statement after the other. *)
Definition and_then (c1 c2 : checked) : checked :=
  match outcome c1 with
  | Passed => mkChecked (printed c1 ++ printed c2) (outcome c2)
  | _ => c1
  end.

Definition verify_analysis_json (self : Experiment) (analysis : value)
  : checked :=
  and_then
    (check_field "imports" (name self) (imports self) analysis "imports")
    (and_then
       (check_field "declared dependencies" (name self)
          (declared_deps self) analysis "declared_deps")
       (and_then
          (check_field "undeclared dependencies" (name self)
             (undeclared_deps self) analysis "undeclared_deps")
          (check_field "unused dependencies" (name self) (unused_deps self)
             analysis "unused_deps"))).

(** An expectation that is absent or empty. *)
Definition vacuous (expected : option (list string)) : bool :=
  match expected with
  | Some (_ :: _) => false
  | _ => true
  end.

(** An item of the analysis that has name [n]. *)
Definition has_name (imp : value) (n : string) : Prop :=
  exists entries, imp = VDict entries /\ lookup "name" entries = Some (VStr n).

(** [ThirdPartyProject.tarball_name], from the project's name and the
    file name at the end of the path of its URL. *)
Definition tarball_name (name filename : string) : string :=
  if negb (is_substring name filename)
  then (name ++ "-" ++ filename)%string
  else filename.

Definition item (n : string) : value :=
  VDict [("name", VStr n); ("location", VStr "setup.py")].

End RealProjects.

(* ================================================================== *)
(** * Facts about insertion-ordered mappings *)

Section Mappings.
Variable V : Type.
Implicit Types (m : list (string * V)) (k : string).

Lemma lookup_None_keys m k :
  lookup k m = None <-> ~ In k (map fst m).
Proof.
  induction m as [|[k' v] m IH]; simpl.
  - tauto.
  - destruct (String.eqb_spec k' k) as [->|Hne].
    + split; [discriminate | intros H; exfalso; apply H; now left].
    + rewrite IH. intuition.
Qed.

Lemma lookup_Some_In m k v : lookup k m = Some v -> In (k, v) m.
Proof.
  induction m as [|[k' v'] m IH]; simpl; [discriminate|].
  destruct (String.eqb_spec k' k) as [->|Hne].
  - intros [= ->]. now left.
  - intros H. right. auto.
Qed.

Lemma In_lookup_Some m k v :
  NoDup (map fst m) -> In (k, v) m -> lookup k m = Some v.
Proof.
  induction m as [|[k' v'] m IH]; simpl; [tauto|].
  intros Hnd [Heq|Hin].
  - injection Heq as -> ->. now rewrite String.eqb_refl.
  - inversion Hnd as [|? ? Hnotin Hnd']; subst.
    destruct (String.eqb_spec k' k) as [->|Hne].
    + exfalso. apply Hnotin. apply (in_map fst) in Hin. exact Hin.
    + auto.
Qed.

(** With distinct keys, the items under one key are the looked-up one. *)
Lemma filter_key_lookup m k :
  NoDup (map fst m) ->
  filter (fun g => String.eqb (fst g) k) m
  = match lookup k m with Some v => [(k, v)] | None => [] end.
Proof.
  induction m as [|[k' v'] m IH]; simpl; [reflexivity|].
  intros Hnd. inversion Hnd as [|? ? Hnotin Hnd']; subst.
  destruct (String.eqb_spec k' k) as [->|Hne].
  - rewrite IH by assumption.
    apply lookup_None_keys in Hnotin. now rewrite Hnotin.
  - auto.
Qed.

Lemma NoDup_keys_filter (p : string * V -> bool) m :
  NoDup (map fst m) -> NoDup (map fst (filter p m)).
Proof.
  induction m as [|g m IH]; simpl; [constructor|].
  intros Hnd. inversion Hnd as [|? ? Hnotin Hnd']; subst.
  destruct (p g); simpl; auto.
  constructor; auto.
  intros Hin. apply Hnotin.
  apply in_map_iff in Hin as [g' [Hg' Hin]].
  apply filter_In in Hin as [Hin _].
  rewrite <- Hg'. now apply in_map.
Qed.
End Mappings.

(* ================================================================== *)
(** * Grouping by name *)

Section GroupingFacts.
Variable A : Type.
Variable key : A -> string.

Local Abbreviation named := (Check.named key).

Lemma lookup_group_insert n x (m : list (string * list A)) k :
  lookup k (Check.group_insert n x m)
  = if String.eqb n k
    then Some (match lookup n m with Some occ => occ | None => [] end
               ++ [x])
    else lookup k m.
Proof.
  induction m as [|[k' occ] m IH]; simpl.
  - reflexivity.
  - destruct (String.eqb_spec k' n) as [->|Hne]; simpl.
    + destruct (String.eqb_spec n k) as [->|Hnk]; reflexivity.
    + rewrite IH.
      destruct (String.eqb_spec n k) as [->|Hnk].
      * apply String.eqb_neq in Hne. now rewrite Hne.
      * reflexivity.
Qed.

Lemma keys_group_insert n x (m : list (string * list A)) :
  Check.keys (Check.group_insert n x m)
  = if Check.mem n (Check.keys m) then Check.keys m
    else Check.keys m ++ [n].
Proof.
  unfold Check.keys, Check.mem.
  induction m as [|[k' occ] m IH]; simpl.
  - reflexivity.
  - rewrite (String.eqb_sym n k').
    destruct (String.eqb_spec k' n) as [->|Hne]; simpl.
    + reflexivity.
    + rewrite IH. now destruct (existsb (String.eqb n) (map fst m)).
Qed.

Lemma mem_In n l : Check.mem n l = true <-> In n l.
Proof.
  unfold Check.mem. rewrite existsb_exists. split.
  - intros [x [Hin Heq]]. apply String.eqb_eq in Heq. now subst.
  - intros Hin. exists n. split; [assumption | apply String.eqb_refl].
Qed.

Lemma group_by_name_snoc xs x :
  Check.group_by_name key (xs ++ [x])
  = Check.group_insert (key x) x (Check.group_by_name key xs).
Proof. unfold Check.group_by_name. now rewrite fold_left_app. Qed.

(** The group of a name is the sub-sequence of its occurrences. *)
Lemma lookup_group_by_name xs k :
  lookup k (Check.group_by_name key xs)
  = match filter (named k) xs with
    | [] => None
    | occ => Some occ
    end.
Proof.
  induction xs as [|x xs IH] using rev_ind.
  - reflexivity.
  - rewrite group_by_name_snoc, lookup_group_insert, filter_app. simpl.
    unfold Check.named at 2.
    destruct (String.eqb_spec (key x) k) as [->|Hne].
    + rewrite IH.
      destruct (filter (named k) xs); reflexivity.
    + rewrite IH, app_nil_r. reflexivity.
Qed.

Lemma NoDup_keys_group_by_name xs :
  NoDup (Check.keys (Check.group_by_name key xs)).
Proof.
  induction xs as [|x xs IH] using rev_ind.
  - constructor.
  - rewrite group_by_name_snoc, keys_group_insert.
    destruct (Check.mem (key x) (Check.keys (Check.group_by_name key xs)))
      eqn:Hmem; [assumption|].
    apply NoDup_app; [assumption | repeat constructor; simpl; tauto |].
    intros a Ha [<-|[]].
    apply mem_In in Ha. congruence.
Qed.

Lemma filter_named_nil xs k :
  filter (named k) xs = [] <-> ~ In k (map key xs).
Proof.
  induction xs as [|x xs IH]; simpl; [tauto|].
  unfold Check.named at 1.
  destruct (String.eqb_spec (key x) k) as [->|Hne].
  - split; [discriminate | intros H; exfalso; apply H; now left].
  - rewrite IH. intuition.
Qed.

Lemma keys_group_by_name xs k :
  In k (Check.keys (Check.group_by_name key xs)) <-> In k (map key xs).
Proof.
  unfold Check.keys.
  destruct (lookup k (Check.group_by_name key xs)) eqn:Hl.
  - split; intros _.
    + rewrite lookup_group_by_name in Hl.
      destruct (in_dec string_dec k (map key xs)) as [|Hn]; [assumption|].
      apply filter_named_nil in Hn. now rewrite Hn in Hl.
    + apply lookup_Some_In in Hl. now apply (in_map fst) in Hl.
  - pose proof Hl as Hl'. apply lookup_None_keys in Hl.
    rewrite lookup_group_by_name in Hl'.
    destruct (filter (named k) xs) eqn:Hf; [|discriminate].
    apply filter_named_nil in Hf. tauto.
Qed.

Lemma In_group_by_name xs k occ :
  In (k, occ) (Check.group_by_name key xs) ->
  occ = filter (named k) xs /\ In k (map key xs).
Proof.
  intros Hin.
  pose proof (in_map fst _ _ Hin) as Hk. simpl in Hk.
  apply keys_group_by_name in Hk. split; [|assumption].
  apply In_lookup_Some in Hin; [|apply NoDup_keys_group_by_name].
  rewrite lookup_group_by_name in Hin.
  destruct (filter (named k) xs); congruence.
Qed.
End GroupingFacts.

(** The groups that steps 3 and 4 report. *)
Section Unmatched.
Variable A : Type.
Variable key : A -> string.
Variable xs : list A.
Variables others ignored : list string.

Local Abbreviation reported :=
  (Check.unmatched (Check.group_by_name key xs) others ignored).

Lemma unmatched_In k occ :
  In (k, occ) reported <->
  occ = filter (Check.named key k) xs /\ In k (map key xs)
  /\ ~ In k others /\ ~ In k ignored.
Proof.
  unfold Check.unmatched. rewrite filter_In. simpl.
  rewrite andb_true_iff, !negb_true_iff.
  rewrite <- !not_true_iff_false, !mem_In.
  split.
  - intros [Hin [Ho Hi]]. apply In_group_by_name in Hin. tauto.
  - intros [-> [Hk [Ho Hi]]]. split; [|tauto].
    apply lookup_Some_In. rewrite lookup_group_by_name.
    destruct (filter (Check.named key k) xs) eqn:Hf; [|reflexivity].
    apply filter_named_nil in Hf. contradiction.
Qed.

Lemma unmatched_keys k :
  In k (map fst reported) <->
  In k (map key xs) /\ ~ In k others /\ ~ In k ignored.
Proof.
  rewrite in_map_iff. split.
  - intros [[k' occ] [Hk Hin]]. simpl in Hk. subst k'.
    apply unmatched_In in Hin. tauto.
  - intros H. exists (k, filter (Check.named key k) xs). split; [reflexivity|].
    apply unmatched_In. tauto.
Qed.

Lemma unmatched_NoDup : NoDup (map fst reported).
Proof. apply NoDup_keys_filter, NoDup_keys_group_by_name. Qed.

Lemma unmatched_one k :
  In k (map key xs) -> ~ In k others -> ~ In k ignored ->
  filter (fun g => String.eqb (fst g) k) reported
  = [(k, filter (Check.named key k) xs)].
Proof.
  intros Hk Ho Hi.
  rewrite filter_key_lookup by apply unmatched_NoDup.
  assert (In (k, filter (Check.named key k) xs) reported) as Hin
    by (apply unmatched_In; tauto).
  apply In_lookup_Some in Hin; [|apply unmatched_NoDup].
  now rewrite Hin.
Qed.

Lemma unmatched_ignored :
  reported
  = filter (fun g => negb (Check.mem (fst g) ignored))
      (Check.unmatched (Check.group_by_name key xs) others []).
Proof.
  unfold Check.unmatched.
  induction (Check.group_by_name key xs) as [|g m IH]; simpl; [reflexivity|].
  rewrite andb_true_r.
  destruct (negb (Check.mem (fst g) others)); simpl.
  - destruct (negb (Check.mem (fst g) ignored)); simpl; now rewrite IH.
  - exact IH.
Qed.
End Unmatched.

(* ================================================================== *)
(** * The reconciliation engine *)

Lemma filter_map_comm {A B} (f : A -> B) (p : B -> bool) (l : list A) :
  filter p (map f l) = map f (filter (fun x => p (f x)) l).
Proof.
  induction l as [|x l IH]; simpl; [reflexivity|].
  destruct (p (f x)); simpl; now rewrite IH.
Qed.

Section Compare.
Variables (imports : list ParsedImport) (deps : list DeclaredDependency).
Variables (ignored_unused ignored_undeclared : list string).

Local Abbreviation result :=
  (Check.compare_imports_to_dependencies imports deps
     ignored_unused ignored_undeclared).

Lemma undeclared_names :
  map undeclared_name (fst result)
  = map fst (Check.unmatched (Check.group_by_name import_name imports)
               (Check.keys (Check.group_by_name dep_name deps))
               ignored_undeclared).
Proof. simpl. rewrite map_map. reflexivity. Qed.

Lemma unused_names :
  map unused_name (snd result)
  = map fst (Check.unmatched (Check.group_by_name dep_name deps)
               (Check.keys (Check.group_by_name import_name imports))
               ignored_unused).
Proof. simpl. rewrite map_map. reflexivity. Qed.

(** A name is reported as undeclared exactly when it is imported, not
    declared and not ignored. *)
Lemma undeclared_iff n :
  In n (map undeclared_name (fst result)) <->
  In n (map import_name imports) /\ ~ In n (map dep_name deps)
  /\ ~ In n ignored_undeclared.
Proof.
  rewrite undeclared_names, unmatched_keys, keys_group_by_name. tauto.
Qed.

Lemma unused_iff n :
  In n (map unused_name (snd result)) <->
  In n (map dep_name deps) /\ ~ In n (map import_name imports)
  /\ ~ In n ignored_unused.
Proof.
  rewrite unused_names, unmatched_keys, keys_group_by_name. tauto.
Qed.

Lemma undeclared_entry u :
  In u (fst result) ->
  undeclared_references u
  = filter (Check.named import_name (undeclared_name u)) imports.
Proof.
  simpl. rewrite in_map_iff. intros [[k occ] [<- Hin]]. simpl.
  apply unmatched_In in Hin. tauto.
Qed.

Lemma unused_entry u :
  In u (snd result) ->
  unused_references u = filter (Check.named dep_name (unused_name u)) deps.
Proof.
  simpl. rewrite in_map_iff. intros [[k occ] [<- Hin]]. simpl.
  apply unmatched_In in Hin. tauto.
Qed.
End Compare.

Lemma Forall_filter_named {A} (key : A -> string) k xs :
  Forall (fun x => key x = k) (filter (Check.named key k) xs).
Proof.
  apply Forall_forall. intros x Hx. apply filter_In in Hx as [_ Hx].
  now apply String.eqb_eq in Hx.
Qed.

(** C1. Ignore lists only suppress: a name in [ignored_unused] is never in
    the unused list, a name in [ignored_undeclared] is never in the
    undeclared list, a name that occurs among the imports and among the
    declared dependencies is in neither list whatever the ignore lists
    hold, and each output list is the list obtained with empty ignore
    lists, filtered: nothing is reported because of an ignore list. *)
Theorem compare_ignore_lists_only_suppress :
  forall imports dependencies ignored_unused ignored_undeclared,
    let r := Check.compare_imports_to_dependencies imports dependencies
               ignored_unused ignored_undeclared in
    let r0 := Check.compare_imports_to_dependencies imports dependencies
                [] [] in
    (forall n, In n ignored_unused -> ~ In n (map unused_name (snd r)))
    /\ (forall n, In n ignored_undeclared ->
                  ~ In n (map undeclared_name (fst r)))
    /\ (forall n, In n (map import_name imports) ->
                  In n (map dep_name dependencies) ->
                  ~ In n (map undeclared_name (fst r))
                  /\ ~ In n (map unused_name (snd r)))
    /\ fst r = filter (fun u => negb (Check.mem (undeclared_name u)
                                        ignored_undeclared)) (fst r0)
    /\ snd r = filter (fun u => negb (Check.mem (unused_name u)
                                        ignored_unused)) (snd r0).
Proof.
  intros imports dependencies ignored_unused ignored_undeclared r r0.
  repeat split.
  - intros n Hn Hin. apply unused_iff in Hin. tauto.
  - intros n Hn Hin. apply undeclared_iff in Hin. tauto.
  - intros Hin. apply undeclared_iff in Hin. tauto.
  - intros Hin. apply unused_iff in Hin. tauto.
  - subst r r0. simpl. rewrite filter_map_comm. simpl.
    now rewrite <- unmatched_ignored.
  - subst r r0. simpl. rewrite filter_map_comm. simpl.
    now rewrite <- unmatched_ignored.
Qed.

(** An ignored unused dependency, an ignored undeclared import and a
    matched name, none of them reported. *)
Lemma compare_ignore_lists_only_suppress_witness :
  let r := Check.compare_imports_to_dependencies
             (Check.imports_factory ["isort"; "numpy"; "pandas"])
             (Check.deps_factory ["isort"; "black"; "scipy"])
             ["black"] ["numpy"] in
  (In "black" ["black"] /\ ~ In "black" (map unused_name (snd r)))
  /\ (In "numpy" ["numpy"] /\ ~ In "numpy" (map undeclared_name (fst r)))
  /\ (~ In "isort" (map undeclared_name (fst r))
      /\ ~ In "isort" (map unused_name (snd r))).
Proof.
  pose proof (compare_ignore_lists_only_suppress
                (Check.imports_factory ["isort"; "numpy"; "pandas"])
                (Check.deps_factory ["isort"; "black"; "scipy"])
                ["black"] ["numpy"]) as H.
  cbv zeta in H. destruct H as (Hunused & Hundeclared & Hboth & _).
  split; [|split].
  - split; [now left | apply Hunused; now left].
  - split; [now left | apply Hundeclared; now left].
  - apply Hboth; now left.
Defined.


(** C2. With empty inputs the result is the pair of two empty lists; with
    disjoint name sets and empty ignore lists the undeclared list names
    exactly the imported names and the unused list exactly the declared
    names, each name once. *)
Theorem compare_disjoint_reports_all :
  Check.compare_imports_to_dependencies [] [] [] [] = ([], [])
  /\ forall imports dependencies,
      (forall n, In n (map import_name imports) ->
                 ~ In n (map dep_name dependencies)) ->
      let r := Check.compare_imports_to_dependencies imports dependencies
                 [] [] in
      (forall n, In n (map undeclared_name (fst r))
                 <-> In n (map import_name imports))
      /\ (forall n, In n (map unused_name (snd r))
                    <-> In n (map dep_name dependencies))
      /\ NoDup (map undeclared_name (fst r))
      /\ NoDup (map unused_name (snd r)).
Proof.
  split; [reflexivity|].
  intros imports dependencies Hdisj r. subst r. repeat split.
  - intros Hin. apply undeclared_iff in Hin. tauto.
  - intros Hin. apply undeclared_iff. repeat split; auto.
  - intros Hin. apply unused_iff in Hin. tauto.
  - intros Hin. apply unused_iff. repeat split; auto.
    intros Hi. exact (Hdisj n Hi Hin).
  - rewrite undeclared_names. apply unmatched_NoDup.
  - rewrite unused_names. apply unmatched_NoDup.
Qed.

(** Three imports of two names against one declared dependency. *)
Lemma compare_disjoint_reports_all_witness :
  let imports := Check.imports_factory ["pandas"; "numpy"; "pandas"] in
  let dependencies := Check.deps_factory ["scipy"] in
  let r := Check.compare_imports_to_dependencies imports dependencies
             [] [] in
  (forall n, In n (map undeclared_name (fst r))
             <-> In n (map import_name imports))
  /\ (forall n, In n (map unused_name (snd r))
                <-> In n (map dep_name dependencies))
  /\ NoDup (map undeclared_name (fst r))
  /\ NoDup (map unused_name (snd r)).
Proof.
  apply (proj2 compare_disjoint_reports_all).
  simpl. intros n [<-|[<-|[<-|[]]]] [H|[]]; discriminate H.
Defined.

(** C3. In both output lists every occurrence of an entry carries the
    entry's name, no two entries share a name, and the occurrences of an
    entry are all the occurrences of its name in the input, in their
    original order. So two imports of one name that is reported (neither
    declared nor ignored) are in one and the same entry, the only one of
    that name, in their original relative order. *)
Theorem compare_groups_occurrences :
  forall imports dependencies ignored_unused ignored_undeclared,
    let r := Check.compare_imports_to_dependencies imports dependencies
               ignored_unused ignored_undeclared in
    (forall u, In u (fst r) ->
       Forall (fun i => import_name i = undeclared_name u)
         (undeclared_references u))
    /\ (forall u, In u (snd r) ->
          Forall (fun d => dep_name d = unused_name u)
            (unused_references u))
    /\ NoDup (map undeclared_name (fst r))
    /\ NoDup (map unused_name (snd r))
    /\ (forall u, In u (fst r) ->
          undeclared_references u
          = filter (Check.named import_name (undeclared_name u)) imports)
    /\ (forall u, In u (snd r) ->
          unused_references u
          = filter (Check.named dep_name (unused_name u)) dependencies)
    /\ (forall before i1 between i2 after,
          imports = before ++ i1 :: between ++ i2 :: after ->
          import_name i1 = import_name i2 ->
          ~ In (import_name i1) (map dep_name dependencies) ->
          ~ In (import_name i1) ignored_undeclared ->
          exists o1 o2 o3,
            filter (fun u => String.eqb (undeclared_name u) (import_name i1))
              (fst r)
            = [mkUndeclaredDependency (import_name i1)
                 (o1 ++ i1 :: o2 ++ i2 :: o3)]
            /\ o1 ++ i1 :: o2 ++ i2 :: o3
               = filter (Check.named import_name (import_name i1)) imports).
Proof.
  intros imports dependencies ignored_unused ignored_undeclared r.
  split; [|split; [|split; [|split; [|split; [|split]]]]].
  - intros u Hu. rewrite (undeclared_entry _ _ _ _ _ Hu).
    apply Forall_filter_named.
  - intros u Hu. rewrite (unused_entry _ _ _ _ _ Hu).
    apply Forall_filter_named.
  - subst r. rewrite undeclared_names. apply unmatched_NoDup.
  - subst r. rewrite unused_names. apply unmatched_NoDup.
  - intros u Hu. exact (undeclared_entry _ _ _ _ _ Hu).
  - intros u Hu. exact (unused_entry _ _ _ _ _ Hu).
  - intros before i1 between i2 after Himports Hname Hdecl Hign.
    set (n := import_name i1) in *.
    set (p := Check.named import_name n).
    exists (filter p before), (filter p between), (filter p after).
    assert (p i1 = true) as H1 by apply String.eqb_refl.
    assert (p i2 = true) as H2
      by (unfold p, Check.named; rewrite <- Hname; apply String.eqb_refl).
    assert (filter p before ++ i1 :: filter p between ++ i2 :: filter p after
            = filter p imports) as Hocc.
    { rewrite Himports, filter_app. simpl. rewrite H1, filter_app. simpl.
      now rewrite H2. }
    split; [|exact Hocc].
    subst r. simpl. rewrite filter_map_comm. simpl.
    rewrite unmatched_one.
    + simpl. now rewrite Hocc.
    + rewrite Himports, map_app. apply in_or_app. right. now left.
    + rewrite keys_group_by_name. exact Hdecl.
    + exact Hign.
Qed.

(** Two imports of [numpy] from two files, one of [pandas] between them. *)
Lemma compare_groups_occurrences_witness :
  let i1 := mkParsedImport "numpy" (mkLocation (File "a.py") (Some 1)) in
  let i2 := mkParsedImport "numpy" (mkLocation (File "b.py") (Some 7)) in
  let r := Check.compare_imports_to_dependencies
             ([i1] ++ Check.imports_factory ["pandas"] ++ [i2])
             (Check.deps_factory ["pandas"]) [] [] in
  filter (fun u => String.eqb (undeclared_name u) "numpy") (fst r)
  = [mkUndeclaredDependency "numpy" [i1; i2]].
Proof.
  intros i1 i2.
  pose proof (compare_groups_occurrences
                ([i1] ++ Check.imports_factory ["pandas"] ++ [i2])
                (Check.deps_factory ["pandas"]) [] []) as H.
  cbv zeta in H. destruct H as (_ & _ & _ & _ & _ & _ & H).
  destruct (H [] i1 (Check.imports_factory ["pandas"]) i2 [] eq_refl eq_refl)
    as (o1 & o2 & o3 & Hentry & Hocc).
  - simpl. intros [H'|[]]. discriminate H'.
  - simpl. tauto.
  - simpl in Hocc. rewrite Hocc in Hentry. exact Hentry.
Defined.


(** The rows of the parametrized test of the comparison. *)
Example test_compare_imports_to_dependencies :
  let compare := Check.compare_imports_to_dependencies in
  let imports := Check.imports_factory in
  let deps := Check.deps_factory in
  let undeclared := Check.undeclared_factory in
  let unused := Check.unused_factory in
  let my_file :=
    mkParsedImport "numpy" (mkLocation (File "my_file.py") (Some 3)) in
  compare [] [] [] [] = ([], [])
  /\ compare (imports ["pandas"]) [] [] [] = (undeclared ["pandas"], [])
  /\ compare [] (deps ["pandas"]) [] [] = ([], unused ["pandas"])
  /\ compare (imports ["pandas"]) (deps ["pandas"]) [] [] = ([], [])
  /\ compare (imports ["pandas"; "numpy"]) (deps ["pandas"; "scipy"]) [] []
     = (undeclared ["numpy"], unused ["scipy"])
  /\ compare (imports ["pandas"] ++ [my_file]) (deps ["pandas"; "scipy"])
       [] []
     = ([mkUndeclaredDependency "numpy" [my_file]], unused ["scipy"])
  /\ compare [] (deps ["black"]) ["black"] [] = ([], [])
  /\ compare (imports ["isort"]) (deps ["isort"]) ["isort"] [] = ([], [])
  /\ compare (imports ["isort"]) (deps []) ["isort"] []
     = (undeclared ["isort"], [])
  /\ compare (imports ["pandas"; "numpy"])
       (deps ["pandas"; "isort"; "black"]) ["isort"] []
     = (undeclared ["numpy"], unused ["black"])
  /\ compare (imports ["invalid_import"]) [] [] ["invalid_import"]
     = ([], [])
  /\ compare (imports ["isort"]) (deps ["isort"]) [] ["isort"] = ([], [])
  /\ compare [] (deps ["isort"]) [] ["isort"] = ([], unused ["isort"])
  /\ compare (imports ["pandas"; "numpy"; "not_valid"])
       (deps ["pandas"; "black"]) [] ["not_valid"]
     = (undeclared ["numpy"], unused ["black"])
  /\ compare (imports ["pandas"; "numpy"; "not_valid"])
       (deps ["pandas"; "black"; "isort"]) ["isort"] ["not_valid"]
     = (undeclared ["numpy"], unused ["black"]).
Proof. repeat split. Qed.

(* ================================================================== *)
(** * Generators *)

Section Generators.
Import Py.
Variable A : Type.
Implicit Types g : generator A.

Lemma seq_pass_l g : seq pass g = g.
Proof. now destruct g. Qed.

Lemma seq_pass_r g : seq g pass = g.
Proof.
  destruct g as [y l [e|]]; unfold seq; simpl; [reflexivity|].
  now rewrite !app_nil_r.
Qed.

Lemma seq_assoc g1 g2 g3 : seq (seq g1 g2) g3 = seq g1 (seq g2 g3).
Proof.
  destruct g1 as [y1 l1 [e1|]], g2 as [y2 l2 [e2|]]; unfold seq; simpl;
    try reflexivity.
  now rewrite !app_assoc.
Qed.

Lemma raised_seq g1 g2 :
  raised (seq g1 g2)
  = match raised g1 with Some e => Some e | None => raised g2 end.
Proof. unfold seq. now destruct (raised g1) eqn:H. Qed.

Lemma yielded_seq g1 g2 :
  raised g1 = None -> yielded (seq g1 g2) = yielded g1 ++ yielded g2.
Proof. unfold seq. now intros ->. Qed.

Lemma logged_seq g1 g2 :
  raised g1 = None -> logged (seq g1 g2) = logged g1 ++ logged g2.
Proof. unfold seq. now intros ->. Qed.

Lemma seq_raised g1 g2 e : raised g1 = Some e -> seq g1 g2 = g1.
Proof. unfold seq. now intros ->. Qed.

Lemma for_each_app {B} (xs ys : list B) (body : B -> generator A) :
  for_each (xs ++ ys) body = seq (for_each xs body) (for_each ys body).
Proof.
  induction xs as [|x xs IH]; simpl.
  - now rewrite seq_pass_l.
  - now rewrite IH, seq_assoc.
Qed.

Lemma for_each_yield {B} (f : B -> A) (xs : list B) :
  for_each xs (fun x => yield (f x)) = mkGenerator (map f xs) [] None.
Proof.
  induction xs as [|x xs IH]; simpl; [reflexivity|].
  now rewrite IH.
Qed.

Lemma for_each_pass {B} (xs : list B) (body : B -> generator A) :
  (forall x, In x xs -> body x = pass) -> for_each xs body = pass.
Proof.
  induction xs as [|x xs IH]; simpl; [reflexivity|].
  intros H. rewrite (H x) by now left.
  rewrite seq_pass_l. apply IH. intros y Hy. apply H. now right.
Qed.

(** A loop that only yields a record for every item keeps what the
    iterated generator logged and how it ended. *)
Lemma for_in_yield {B} (f : B -> A) (g : generator B) :
  for_in g (fun x => yield (f x))
  = mkGenerator (map f (yielded g)) (logged g) (raised g).
Proof.
  unfold for_in. rewrite for_each_yield.
  destruct g as [y l [e|]]; unfold seq; simpl; now rewrite !app_nil_r.
Qed.

Lemma logged_seq_nil g1 g2 :
  logged g1 = [] -> logged g2 = [] -> logged (seq g1 g2) = [].
Proof.
  unfold seq. intros H1 H2. destruct (raised g1); [assumption|].
  simpl. now rewrite H1, H2.
Qed.

Lemma logged_for_each_nil {B} (xs : list B) (body : B -> generator A) :
  (forall x, logged (body x) = []) -> logged (for_each xs body) = [].
Proof.
  intros H. induction xs as [|x xs IH]; simpl; [reflexivity|].
  now apply logged_seq_nil.
Qed.


(** How a loop ends: without exception, or the way one of its bodies
    ended. *)
Lemma raised_for_each {B} (P : option exn -> Prop) (xs : list B)
    (body : B -> generator A) :
  P None -> (forall x, In x xs -> P (raised (body x))) ->
  P (raised (for_each xs body)).
Proof.
  intros HNone Hbody. induction xs as [|x xs IH]; simpl; [exact HNone|].
  rewrite raised_seq.
  pose proof (Hbody x (or_introl eq_refl)) as Hx.
  destruct (raised (body x)); [exact Hx|].
  apply IH. intros y Hy. apply Hbody. now right.
Qed.

Lemma try_except_None g handler :
  raised g = None -> try_except g handler = g.
Proof. unfold try_except. now intros ->. Qed.
End Generators.

(* ================================================================== *)
(** * Characters *)

Section Characters.
Import Py.



Lemma absorb_0 cur rest : absorb 0 cur rest = cur :: rest.
Proof. reflexivity. Qed.



Lemma absorb_not_nil n cur rest : absorb n cur rest <> [].
Proof.
  revert cur rest. induction n as [|n IH]; intros cur rest; [discriminate|].
  destruct rest as [|[|a [|b s]] rest]; simpl; try discriminate.
  destruct (is_continuation a); [apply IH | discriminate].
Qed.








End Characters.

(* ================================================================== *)
(** * Lines *)

Section Lines.
Import Py PkgResources.
Implicit Types l r : line.








Lemma rstrip_blank l : Forall (fun ch => is_space ch = true) l -> rstrip l = [].
Proof.
  induction 1 as [|ch l Hch _ IH]; [reflexivity|].
  simpl. now rewrite IH, Hch.
Qed.

Lemma last_rstrip l : is_space (last (rstrip l) "") = false.
Proof.
  induction l as [|ch l IH]; [reflexivity|].
  cbn [rstrip]. destruct (rstrip l) as [|y t] eqn:Hr.
  - destruct (is_space ch) eqn:Hch; [reflexivity | exact Hch].
  - exact IH.
Qed.

Lemma strip_nil : strip [] = [].
Proof. reflexivity. Qed.


Lemma last_strip l : is_space (last (strip l) "") = false.
Proof. apply last_rstrip. Qed.




(** ** [splitlines] *)

Local Abbreviation lines_from :=
  (fun cur s => filter _nonblank (map strip (splitlines_from cur s))).





End Lines.

(* ================================================================== *)
(** * Comments and continuations *)

Section Items.
Import Py PkgResources.
Implicit Types l r item : line.

Local Abbreviation commented :=
  (fun l => exists before after, l = before ++ " " :: "#" :: after).

Lemma startswith_app ch l x :
  l <> [] -> startswith ch (l ++ x) = startswith ch l.
Proof. now destruct l. Qed.









End Items.

(* ================================================================== *)
(** * The lines of a text *)

Section TextLines.
Import Py PkgResources.





















End TextLines.

(* ================================================================== *)
(** * The requirements parser *)

Section Requirements.
Import Py.
Variable requirement_key : string -> option string.
Variable path_hint : Location.

Local Abbreviation record := (fun key => mkDeclaredDependency key path_hint).
Local Abbreviation parse_item :=
  (fun item =>
     match requirement_key item with
     | Some key => yield key
     | None => raise (InvalidRequirement item)
     end).




(** The parser adds nothing to what the library's generator does: one
    record per requirement, the same end. *)
Lemma parse_requirements_contents_eq text :
  Extract.parse_requirements_contents requirement_key path_hint text
  = let g := PkgResources.parse_requirements requirement_key text in
    mkGenerator (map record (yielded g)) (logged g) (raised g).
Proof. unfold Extract.parse_requirements_contents. apply for_in_yield. Qed.

(** The library's generator logs nothing and ends without exception,
    with [TypeError] (an item that cannot be iterated) or with
    [InvalidRequirement]. *)
Lemma yield_lines_cases :
  forall strs,
    logged (PkgResources.yield_lines strs) = []
    /\ (raised (PkgResources.yield_lines strs) = None
        \/ raised (PkgResources.yield_lines strs) = Some TypeError).
Proof.
  fix IH 1. intros [s|b|r|items|entries]; simpl.
  - auto.
  - destruct (String.eqb b ""); simpl; auto.
  - auto.
  - induction items as [|item items [IHl IHr]]; simpl; [auto|].
    destruct (IH item) as [Hl Hr]. split.
    + now apply logged_seq_nil.
    + rewrite raised_seq. destruct Hr as [-> | ->]; auto.
  - auto.
Qed.

Lemma parse_requirements_cases strs :
  logged (PkgResources.parse_requirements requirement_key strs) = []
  /\ requirement_exception
       (raised (PkgResources.parse_requirements requirement_key strs)).
Proof.
  unfold PkgResources.parse_requirements. cbv zeta.
  destruct (yield_lines_cases strs) as [_ Hr]. split.
  - apply logged_seq_nil.
    + apply logged_for_each_nil. intros item.
      now destruct (requirement_key item).
    + now destruct (raised (PkgResources.yield_lines strs)).
  - rewrite raised_seq.
    set (items := PkgResources.requirement_lines _).
    pose proof (@raised_for_each string string requirement_exception items
                  parse_item I) as Hitems.
    destruct (raised (for_each items parse_item)) eqn:Hfor.
    + apply Hitems. intros item _. now destruct (requirement_key item).
    + destruct Hr as [-> | ->]; exact I.
Qed.

Lemma parse_requirements_contents_cases text :
  logged (Extract.parse_requirements_contents requirement_key path_hint text)
  = []
  /\ requirement_exception
       (raised (Extract.parse_requirements_contents requirement_key
                  path_hint text)).
Proof.
  rewrite parse_requirements_contents_eq. cbv zeta. simpl.
  apply parse_requirements_cases.
Qed.

Lemma parse_requirements_str text :
  PkgResources.parse_requirements requirement_key (VStr text)
  = for_each (Text.requirement_lines text) parse_item.
Proof. unfold PkgResources.parse_requirements. simpl. apply seq_pass_r. Qed.

End Requirements.




(** An option line reaches the specifier parser as every other line
    does. *)
Example requirements_option_line_raises :
  Extract.parse_requirements_contents PkgResources.name_only_key
    Examples.requirements_txt (Py.VStr Examples.requirements_with_option)
  = Py.mkGenerator [Examples.dep "pandas" Examples.requirements_txt] []
      (Some (Py.InvalidRequirement "-r other.txt")).
Proof. reflexivity. Qed.

(** Two specifiers and a comment: two records, the version constraint
    stripped. *)
Example requirements_with_comment :
  Extract.parse_requirements_contents PkgResources.name_only_key
    Examples.requirements_txt (Py.VStr Examples.commented_requirements)
  = Py.mkGenerator
      [ Examples.dep "pandas" Examples.requirements_txt;
        Examples.dep "numpy" Examples.requirements_txt ] [] None.
Proof. reflexivity. Qed.

(** A blank line with a no-break space, an indented comment line, a
    comment after a requirement and a continued requirement. *)
Example requirements_with_all_kinds_of_lines :
  Text.requirement_lines Examples.requirements_with_all
  = ["pandas"; "numpy>=1.0"; "scipy>=1.2"]
  /\ Extract.parse_requirements_contents PkgResources.name_only_key
       Examples.requirements_txt (Py.VStr Examples.requirements_with_all)
     = Py.mkGenerator
         [ Examples.dep "pandas" Examples.requirements_txt;
           Examples.dep "numpy" Examples.requirements_txt;
           Examples.dep "scipy" Examples.requirements_txt ] [] None.
Proof. split; reflexivity. Qed.

(* ================================================================== *)
(** * [ast.walk] *)

Section Walk.
Import Py.

Local Abbreviation total := (fun q : list ast => list_sum (map size q)).

Lemma list_sum_cons (n : nat) (l : list nat) :
  list_sum (n :: l) = n + list_sum l.
Proof. reflexivity. Qed.

Lemma size_keywords (keywords : list (option string * ast)) :
  list_sum (map size (map (fun kw => Other "keyword" [snd kw]) keywords))
  = list_sum (map (fun kw => match kw with (_, v) => S (size v) end)
                keywords).
Proof.
  induction keywords as [|[arg v] keywords IH]; [reflexivity|].
  rewrite !map_cons, !list_sum_cons, IH. simpl. lia.
Qed.

Lemma size_keys (ks : list (option ast)) :
  list_sum (map size
              (flat_map (fun k => match k with Some n => [n] | None => [] end)
                 ks))
  = list_sum (map (fun k => match k with Some n => size n | None => 0 end)
                ks).
Proof.
  induction ks as [|[n|] ks IH]; [reflexivity| |].
  - cbn [flat_map app]. now rewrite !map_cons, !list_sum_cons, IH.
  - cbn [flat_map app]. now rewrite !map_cons, !list_sum_cons, IH.
Qed.

(** A node counts for itself and for everything below its children. *)
Lemma size_children node :
  size node = S (total (iter_child_nodes node)).
Proof.
  destruct node
    as [body|v|func args keywords|id ctx|c|elts ctx|ks vs|kind children];
    cbn [iter_child_nodes].
  - reflexivity.
  - simpl. lia.
  - rewrite map_cons, list_sum_cons, map_app, list_sum_app, size_keywords.
    cbn [size]. lia.
  - simpl. lia.
  - reflexivity.
  - rewrite map_app, list_sum_app. cbn [size]. simpl. lia.
  - rewrite map_app, list_sum_app, size_keys. cbn [size]. lia.
  - reflexivity.
Qed.

Lemma total_level (q : list ast) :
  total q = List.length q + total (flat_map iter_child_nodes q).
Proof.
  induction q as [|node q IH]; [reflexivity|].
  cbn [flat_map List.length].
  rewrite map_cons, list_sum_cons, map_app, list_sum_app, IH,
    (size_children node).
  lia.
Qed.

(** The queue is visited in order before any child of its nodes. *)
Lemma walk_queue_app (q1 q2 : list ast) fuel :
  walk_queue (List.length q1 + fuel) (q1 ++ q2)
  = q1 ++ walk_queue fuel (q2 ++ flat_map iter_child_nodes q1).
Proof.
  revert q2. induction q1 as [|node q1 IH]; intros q2.
  - simpl. now rewrite app_nil_r.
  - cbn [List.length Nat.add app walk_queue flat_map].
    rewrite <- app_assoc, IH, <- app_assoc. reflexivity.
Qed.

(** The fuel [walk] starts with is enough: no node is left unvisited. *)
Lemma walk_queue_length fuel (q : list ast) :
  total q <= fuel -> List.length (walk_queue fuel q) = total q.
Proof.
  revert q. induction fuel as [|fuel IH]; intros [|node q] Hfuel;
    try reflexivity.
  - rewrite map_cons, list_sum_cons, (size_children node) in Hfuel. lia.
  - cbn [walk_queue List.length].
    rewrite map_cons, list_sum_cons, (size_children node) in *.
    rewrite IH; rewrite map_app, list_sum_app; lia.
Qed.

Lemma walk_length node : List.length (walk node) = size node.
Proof.
  unfold walk. rewrite walk_queue_length; simpl; lia.
Qed.

(** One level of the walk: the queue, then what lies below it. *)
Lemma walk_queue_level (q : list ast) :
  walk_queue (total q) q
  = q ++ walk_queue (total (flat_map iter_child_nodes q))
           (flat_map iter_child_nodes q).
Proof.
  pose proof (walk_queue_app q [] (total (flat_map iter_child_nodes q)))
    as H.
  rewrite app_nil_r in H. simpl app in H.
  rewrite <- (total_level q) in H. exact H.
Qed.

(** The walk of a module: the module, its statements in order, then what
    lies below them. *)
Lemma walk_Module body :
  walk (Module body)
  = Module body :: body
    ++ walk_queue (total (flat_map iter_child_nodes body))
         (flat_map iter_child_nodes body).
Proof.
  unfold walk. cbn [size walk_queue iter_child_nodes app].
  f_equal. apply walk_queue_level.
Qed.
End Walk.

(* ================================================================== *)
(** * The setup.py parser: which call is read *)

Section SetupCall.
Import Py.
Variable requirement_key : string -> option string.
Variable path_hint : Location.

Local Abbreviation is_setup := Extract._is_setup_function_call.
Local Abbreviation first_call :=
  (Extract.first_setup_call requirement_key path_hint).
Local Abbreviation extract :=
  (Extract._extract_deps_from_setup_call requirement_key path_hint).

Lemma first_setup_call_skip before rest :
  existsb is_setup before = false ->
  first_call (before ++ rest) = first_call rest.
Proof.
  induction before as [|node before IH]; simpl; [reflexivity|].
  intros H. apply orb_false_iff in H as [Hnode Hbefore].
  rewrite Hnode. auto.
Qed.

Lemma first_setup_call_hit v after :
  is_setup (Expr v) = true -> first_call (Expr v :: after) = extract v.
Proof. intros H. cbn [Extract.first_setup_call]. now rewrite H. Qed.

Lemma first_setup_call_none nodes :
  existsb is_setup nodes = false -> first_call nodes = pass.
Proof.
  intros H. rewrite <- (app_nil_r nodes).
  now rewrite first_setup_call_skip.
Qed.
End SetupCall.

(** C5 (as amended). [ast.walk] visits every node of the tree, breadth
    first, and the parser reads the first expression statement in that order
    whose value is a call of the bare name [setup]; every later one is
    ignored, and when there is none nothing is extracted. So the first
    matching top-level statement is read when there is one, whatever lies
    after or below; and when no top-level statement matches, the first
    matching statement directly inside the top-level statements (the body of
    an [if], say) is read. *)
Theorem parse_setup_contents_first_in_walk :
  forall requirement_key path_hint,
    let parse := Extract.parse_setup_contents requirement_key path_hint in
    let extract :=
      Extract._extract_deps_from_setup_call requirement_key path_hint in
    let is_setup := Extract._is_setup_function_call in
    (forall tree, List.length (Py.walk tree) = Py.size tree)
    /\ (forall tree before v after,
          Py.walk tree = before ++ Py.Expr v :: after ->
          existsb is_setup before = false ->
          is_setup (Py.Expr v) = true ->
          parse tree = extract v)
    /\ (forall tree,
          existsb is_setup (Py.walk tree) = false -> parse tree = Py.pass)
    /\ (forall before v after,
          existsb is_setup before = false ->
          is_setup (Py.Expr v) = true ->
          parse (Py.Module (before ++ Py.Expr v :: after)) = extract v)
    /\ (forall body before v after,
          existsb is_setup body = false ->
          flat_map Py.iter_child_nodes body = before ++ Py.Expr v :: after ->
          existsb is_setup before = false ->
          is_setup (Py.Expr v) = true ->
          parse (Py.Module body) = extract v).
Proof.
  intros requirement_key path_hint parse extract is_setup.
  subst parse extract is_setup. unfold Extract.parse_setup_contents.
  split; [|split; [|split; [|split]]].
  - apply walk_length.
  - intros tree before v after Hwalk Hbefore Hv.
    rewrite Hwalk, first_setup_call_skip by assumption.
    now apply first_setup_call_hit.
  - intros tree Hnone. now apply first_setup_call_none.
  - intros before v after Hbefore Hv.
    rewrite walk_Module.
    change (Py.Module ?b :: ?l) with ([Py.Module b] ++ l).
    rewrite first_setup_call_skip by reflexivity.
    rewrite <- app_assoc, first_setup_call_skip by assumption.
    now apply first_setup_call_hit.
  - intros body before v after Hbody Hlevel Hbefore Hv.
    rewrite walk_Module.
    change (Py.Module ?b :: ?l) with ([Py.Module b] ++ l).
    rewrite first_setup_call_skip by reflexivity.
    rewrite first_setup_call_skip by assumption.
    rewrite walk_queue_level, Hlevel, <- app_assoc.
    rewrite first_setup_call_skip by assumption.
    now apply first_setup_call_hit.
Qed.

(** The call under [if __name__ == "__main__":] is the first match one
    level below the top-level statements. *)
Lemma parse_setup_contents_first_in_walk_witness :
  Extract.parse_setup_contents PkgResources.name_only_key Examples.setup_py
    Examples.guarded_setup
  = Extract._extract_deps_from_setup_call PkgResources.name_only_key
      Examples.setup_py
      (Py.Call (Py.Name "setup" Py.Load) []
         [ (Some "install_requires",
            Py.List [Examples.str "a"; Examples.str "b>=2"] Py.Load) ]).
Proof.
  destruct (parse_setup_contents_first_in_walk PkgResources.name_only_key
              Examples.setup_py) as (_ & _ & _ & _ & H).
  apply (H _ [ Py.Other "alias" [];
               Py.Other "Compare"
                 [ Py.Name "__name__" Py.Load; Py.Other "Eq" [];
                   Examples.str "__main__" ] ] _ []);
    reflexivity.
Defined.


(** The claim fails on a call under [if __name__ == "__main__":]: it is no
    top-level statement, and its requirements are extracted. *)
Lemma nested_setup_call_is_read :
  Extract.parse_setup_contents PkgResources.name_only_key Examples.setup_py
    Examples.guarded_setup
  = Py.mkGenerator
      [ Examples.dep "a" Examples.setup_py;
        Examples.dep "b" Examples.setup_py ] [] None.
Proof. reflexivity. Qed.

(** A call whose result is assigned is no expression statement. *)
Example assigned_setup_call_is_not_read :
  Extract.parse_setup_contents PkgResources.name_only_key Examples.setup_py
    Examples.assigned_setup
  = Py.pass.
Proof. reflexivity. Qed.

(** A literal list yields its requirements; a computed value yields none,
    logs a warning and raises nothing. *)
Example setup_install_requires :
  Extract.parse_setup_contents PkgResources.name_only_key Examples.setup_py
    Examples.plain_setup
  = Py.mkGenerator
      [ Examples.dep "a" Examples.setup_py;
        Examples.dep "b" Examples.setup_py ] [] None
  /\ Extract.parse_setup_contents PkgResources.name_only_key
       Examples.setup_py Examples.computed_setup
     = let value := Py.Call (Py.Name "compute_deps" Py.Load) [] [] in
       Py.mkGenerator []
         [ Py.LogException (Py.DependencyParsingError value);
           Py.LogCouldNotParse (Some "install_requires") value ] None.
Proof. split; reflexivity. Qed.

(* ================================================================== *)
(** * The setup.py parser: keywords *)

Section SetupKeywords.
Import Py.
Variable requirement_key : string -> option string.
Variable path_hint : Location.

Local Abbreviation bottom :=
  (Extract._extract_deps_from_bottom_level_list requirement_key path_hint).
Local Abbreviation body :=
  (fun elements : ast => seq (log (LogDump elements)) (bottom elements)).





End SetupKeywords.



(** The mapping [{"a": ["==1"], "b": compute(), "c": ["y"]}]: the first
    entry holds no specifier, so the parser raises before it reaches the
    computed value, and warns of nothing. *)
Example extras_before_computed_value_raise :
  Extract.try_keyword PkgResources.name_only_key Examples.setup_py
    (Some "extras_require",
     Py.Dict [ Some (Examples.str "a"); Some (Examples.str "b");
               Some (Examples.str "c") ]
       [ Py.List [Examples.str "==1"] Py.Load;
         Examples.computed_extra;
         Py.List [Examples.str "y"] Py.Load ])
  = Py.mkGenerator []
      [ Py.LogDump
          (Py.Dict [ Some (Examples.str "a"); Some (Examples.str "b");
                     Some (Examples.str "c") ]
             [ Py.List [Examples.str "==1"] Py.Load;
               Examples.computed_extra;
               Py.List [Examples.str "y"] Py.Load ]);
        Py.LogDump (Py.List [Examples.str "==1"] Py.Load) ]
      (Some (Py.InvalidRequirement "==1")).
Proof. reflexivity. Qed.



(* ================================================================== *)
(** * The pyproject.toml parser: the loop over the fields *)

Section Fields.
Import Py.
Variable path_hint : Location.
Variable style : string.
Variable config : value.

Local Abbreviation parse_field := (Extract.parse_field path_hint style config).
Local Abbreviation parse_fields :=
  (fun fields => Extract.parse_fields path_hint style fields config).

(** What the [try] statement makes of a field parser's run. *)
Lemma parse_field_cases (field : string * Extract.field_parser) :
  parse_field field
  = let g := snd field config in
    match raised g with
    | Some (KeyError _) =>
        mkGenerator (yielded g)
          (logged g ++ [LogField DEBUG "find" style (fst field) path_hint])
          None
    | Some TypeError | Some AttributeError =>
        mkGenerator (yielded g)
          (logged g ++ [LogField ERROR "parse" style (fst field) path_hint])
          None
    | _ => g
    end.
Proof.
  unfold Extract.parse_field, try_except. cbv zeta.
  destruct (snd field config) as [y l [[k| | |line|v]|]]; simpl;
    try reflexivity; unfold seq; simpl; now rewrite app_nil_r.
Qed.

Lemma yielded_parse_field field :
  yielded (parse_field field) = yielded (snd field config).
Proof.
  rewrite parse_field_cases. cbv zeta.
  now destruct (raised (snd field config)) as [[k| | |line|v]|].
Qed.

Lemma raised_parse_field field :
  raised (parse_field field)
  = match raised (snd field config) with
    | Some (InvalidRequirement line) => Some (InvalidRequirement line)
    | Some (DependencyParsingError v) => Some (DependencyParsingError v)
    | _ => None
    end.
Proof.
  rewrite parse_field_cases. cbv zeta.
  destruct (snd field config) as [y l [[k| | |line|v]|]]; reflexivity.
Qed.

(** None of the three exceptions of the handlers leaves the loop. *)
Lemma parse_fields_contained fields e :
  raised (parse_fields fields) = Some e ->
  match e with
  | KeyError _ | TypeError | AttributeError => False
  | _ => True
  end.
Proof.
  unfold Extract.parse_fields.
  induction fields as [|field fields IH]; simpl; [discriminate|].
  rewrite raised_seq, raised_parse_field.
  destruct (raised (snd field config)) as [[k| | |line|v]|]; auto;
    intros [= <-]; exact I.
Qed.
End Fields.

(* ================================================================== *)
(** * The pyproject.toml parser: the Poetry fields *)

Section PoetryFields.
Import Py.
Variable requirement_key : string -> option string.
Variable path_hint : Location.

Local Abbreviation record := (fun k => mkDeclaredDependency k path_hint).
Local Abbreviation not_python := (fun k => negb (String.eqb k "python")).
Local Abbreviation main :=
  (Extract.Poetry.parse_main_dependencies path_hint).
Local Abbreviation group :=
  (Extract.Poetry.parse_group_dependencies path_hint).
Local Abbreviation extra :=
  (Extract.Poetry.parse_extra_dependencies requirement_key path_hint).

Lemma for_each_yield_unless_python (names : list string) :
  for_each names (Extract.yield_unless_python path_hint)
  = mkGenerator (map record (filter not_python names)) [] None.
Proof.
  induction names as [|k names IH]; [reflexivity|].
  cbn [for_each filter]. rewrite IH. unfold Extract.yield_unless_python.
  now destruct (negb (String.eqb k "python")).
Qed.

(** One group table, read. *)
Lemma group_table_cases (table : value) :
  let g := eval (getitem table "dependencies")
             (fun dependencies =>
                eval (dict_keys dependencies)
                  (fun names =>
                     for_each names
                       (Extract.yield_unless_python path_hint))) in
  logged g = []
  /\ match raised g with
     | None | Some (KeyError _) | Some TypeError | Some AttributeError =>
         True
     | _ => False
     end.
Proof.
  cbv zeta. unfold eval, getitem, dict_keys.
  destruct table as [s|b|r|items|entries]; simpl; auto.
  destruct (lookup "dependencies" entries) as [[s|b|r|items|deps]|];
    simpl; auto.
  rewrite for_each_yield_unless_python. simpl. auto.
Qed.

Lemma main_cases (poetry_config : value) :
  logged (main poetry_config) = []
  /\ match raised (main poetry_config) with
     | None | Some (KeyError _) | Some TypeError | Some AttributeError =>
         True
     | _ => False
     end.
Proof. apply group_table_cases. Qed.

Lemma group_tables_cases (tables : list value) :
  let g := for_each tables
             (fun table =>
                eval (getitem table "dependencies")
                  (fun dependencies =>
                     eval (dict_keys dependencies)
                       (fun names =>
                          for_each names
                            (Extract.yield_unless_python path_hint)))) in
  logged g = []
  /\ match raised g with
     | None | Some (KeyError _) | Some TypeError | Some AttributeError =>
         True
     | _ => False
     end.
Proof.
  cbv zeta. induction tables as [|table tables [IHl IHr]]; [simpl; auto|].
  cbn [for_each].
  destruct (group_table_cases table) as [Hl Hr]. cbv zeta in Hl, Hr.
  split.
  - now apply logged_seq_nil.
  - rewrite raised_seq.
    destruct (raised (eval (getitem table "dependencies") _)); assumption.
Qed.

Lemma group_cases (poetry_config : value) :
  logged (group poetry_config) = []
  /\ match raised (group poetry_config) with
     | None | Some (KeyError _) | Some TypeError | Some AttributeError =>
         True
     | _ => False
     end.
Proof.
  unfold Extract.Poetry.parse_group_dependencies, eval, getitem, dict_values.
  destruct poetry_config as [s|b|r|items|entries]; simpl; auto.
  destruct (lookup "group" entries) as [[s|b|r|items|groups]|]; simpl; auto.
  apply group_tables_cases.
Qed.

(** The Poetry loop never stops before its last field: every field
    contributes the records it yielded, whatever ended its siblings. *)
Lemma yielded_poetry (poetry_config : value) :
  yielded (Extract.parse_poetry_pyproject_dependencies requirement_key
             path_hint poetry_config)
  = yielded (main poetry_config) ++ yielded (group poetry_config)
    ++ yielded (extra poetry_config).
Proof.
  unfold Extract.parse_poetry_pyproject_dependencies, Extract.parse_fields,
    Extract.Poetry.fields_parsers.
  cbn [for_each]. rewrite seq_pass_r.
  assert (forall f, f = ("main", main) \/ f = ("group", group) ->
            raised (Extract.parse_field path_hint "Poetry" poetry_config f)
            = None) as Hnone.
  { intros f Hf. rewrite raised_parse_field.
    destruct Hf as [-> | ->]; cbn [snd];
      [destruct (main_cases poetry_config) as [_ H]
      |destruct (group_cases poetry_config) as [_ H]];
      revert H;
      match goal with
      | |- context [match ?r with _ => _ end] =>
          destruct r as [[k| | |line|v]|]
      end; tauto. }
  rewrite yielded_seq by (apply Hnone; now left).
  rewrite yielded_seq by (apply Hnone; now right).
  now rewrite !yielded_parse_field.
Qed.
End PoetryFields.

Section PoetryExtras.
Import Py.
Variable requirement_key : string -> option string.
Variable path_hint : Location.

Local Abbreviation extra :=
  (Extract.Poetry.parse_extra_dependencies requirement_key path_hint).

Lemma extra_of_entries (entries : list (string * value)) groups :
  lookup "extras" entries = Some (VDict groups) ->
  extra (VDict entries) = extra (VDict [("extras", VDict groups)]).
Proof.
  intros H. unfold Extract.Poetry.parse_extra_dependencies, eval, getitem.
  rewrite H. reflexivity.
Qed.

(** An extra that is not a list ends the field with [TypeError]; the
    extras before it have been read. *)
Lemma extra_stops_at_bad_value entries before name bad after :
  lookup "extras" entries
  = Some (VDict (before ++ (name, bad) :: after)) ->
  isinstance_list bad = false ->
  raised (extra (VDict [("extras", VDict before)])) = None ->
  extra (VDict entries)
  = mkGenerator (yielded (extra (VDict [("extras", VDict before)])))
      (logged (extra (VDict [("extras", VDict before)])))
      (Some TypeError).
Proof.
  intros Hextras Hbad Hbefore.
  rewrite (extra_of_entries _ Hextras).
  unfold Extract.Poetry.parse_extra_dependencies, eval in *.
  simpl in *. rewrite map_app, for_each_app. cbn [map for_each snd].
  rewrite Hbad.
  set (b := for_each (map snd before) _) in *.
  unfold seq at 1. rewrite Hbefore.
  unfold seq, raise. simpl. now rewrite !app_nil_r.
Qed.
End PoetryExtras.

(** Only the requirement parser's [InvalidRequirement] can leave the loops
    over the fields. *)
Section FieldExceptions.
Import Py.
Variable requirement_key : string -> option string.
Variable path_hint : Location.

Local Abbreviation requirements :=
  (fun items : list value =>
     for_each items
       (Extract.parse_requirements_contents requirement_key path_hint)).

Lemma requirements_no_parsing_error items :
  no_parsing_error (raised (requirements items)).
Proof.
  apply raised_for_each; [exact I|]. intros item _.
  destruct (parse_requirements_contents_cases requirement_key path_hint item)
    as [_ H].
  now destruct (raised _) as [[k| | |line|v]|].
Qed.

Lemma iterated_no_parsing_error group :
  no_parsing_error
    (raised (eval (iterate group) (fun items => requirements items))).
Proof.
  destruct group as [s|b|r|items|entries]; simpl;
    try apply requirements_no_parsing_error.
  exact I.
Qed.

Lemma poetry_extra_no_parsing_error config :
  no_parsing_error
    (raised (Extract.Poetry.parse_extra_dependencies requirement_key
               path_hint config)).
Proof.
  unfold Extract.Poetry.parse_extra_dependencies, eval at 1, getitem.
  destruct config as [s|b|r|items|entries]; try exact I.
  destruct (lookup "extras" entries) as [extras|]; [|exact I].
  unfold eval at 1, dict_values.
  destruct extras as [s|b|r|items|groups]; try exact I.
  apply raised_for_each; [exact I|]. intros group _.
  destruct (isinstance_list group); [|exact I].
  apply iterated_no_parsing_error.
Qed.

Lemma pep621_main_no_parsing_error config :
  no_parsing_error
    (raised (Extract.PEP621.parse_main_dependencies requirement_key
               path_hint config)).
Proof.
  unfold Extract.PEP621.parse_main_dependencies, eval at 1, getitem.
  destruct config as [s|b|r|items|entries]; try exact I.
  destruct (lookup "project" entries) as [project|]; [|exact I].
  unfold eval at 1.
  destruct project as [s|b|r|items|project]; try exact I.
  destruct (lookup "dependencies" project) as [dependencies|]; [|exact I].
  destruct (isinstance_list dependencies); [|exact I].
  apply iterated_no_parsing_error.
Qed.

Lemma pep621_optional_no_parsing_error config :
  no_parsing_error
    (raised (Extract.PEP621.parse_optional_dependencies requirement_key
               path_hint config)).
Proof.
  unfold Extract.PEP621.parse_optional_dependencies, eval at 1, getitem.
  destruct config as [s|b|r|items|entries]; try exact I.
  destruct (lookup "project" entries) as [project|]; [|exact I].
  unfold eval at 1.
  destruct project as [s|b|r|items|project]; try exact I.
  destruct (lookup "optional-dependencies" project) as [optional|];
    [|exact I].
  unfold eval at 1, dict_values.
  destruct optional as [s|b|r|items|groups]; try exact I.
  apply raised_for_each; [exact I|]. intros group _.
  apply iterated_no_parsing_error.
Qed.

Lemma parse_fields_only_invalid style
    (fields : list (string * Extract.field_parser)) config :
  (forall field : string * Extract.field_parser,
      In field fields -> no_parsing_error (raised (snd field config))) ->
  match raised (Extract.parse_fields path_hint style fields config) with
  | None | Some (InvalidRequirement _) => True
  | _ => False
  end.
Proof.
  intros Hfields. unfold Extract.parse_fields.
  apply (raised_for_each
           (fun e => match e with
                     | None | Some (InvalidRequirement _) => True
                     | _ => False
                     end)); [exact I|].
  intros field Hfield. rewrite raised_parse_field.
  generalize (Hfields field Hfield).
  destruct (raised (snd field config)) as [[k| | |line|v]|]; simpl; auto.
Qed.

Lemma poetry_only_invalid config :
  match raised (Extract.parse_poetry_pyproject_dependencies requirement_key
                  path_hint config) with
  | None | Some (InvalidRequirement _) => True
  | _ => False
  end.
Proof.
  apply parse_fields_only_invalid.
  intros field [<-|[<-|[<-|[]]]]; cbn [snd].
  - destruct (main_cases path_hint config) as [_ H].
    now destruct (raised _) as [[k| | |line|v]|].
  - destruct (group_cases path_hint config) as [_ H].
    now destruct (raised _) as [[k| | |line|v]|].
  - apply poetry_extra_no_parsing_error.
Qed.

Lemma pep621_only_invalid config :
  match raised (Extract.parse_pep621_pyproject_contents requirement_key
                  path_hint config) with
  | None | Some (InvalidRequirement _) => True
  | _ => False
  end.
Proof.
  apply parse_fields_only_invalid.
  intros field [<-|[<-|[]]]; cbn [snd].
  - apply pep621_main_no_parsing_error.
  - apply pep621_optional_no_parsing_error.
Qed.
End FieldExceptions.

(** C7 (as amended). In both styles the loop over the fields lets no
    [KeyError], [TypeError] or [AttributeError] out: it ends without
    exception or with the requirement parser's [InvalidRequirement]. A
    field that is absent
    raises [KeyError] in its parser, which the loop turns into a debug
    record; a shape the parser rejects ([dependencies] that is not a list,
    an extra that is not a list) raises [TypeError] or [AttributeError],
    which the loop turns into an error record. In either case the records
    the field yielded before it ended are kept, nothing of the field
    follows, and the loop goes on: the Poetry loop always yields the records
    of its three fields one after the other. *)
Theorem pyproject_field_errors_are_contained :
  forall requirement_key path_hint,
    let poetry :=
      Extract.parse_poetry_pyproject_dependencies requirement_key
        path_hint in
    let pep621 :=
      Extract.parse_pep621_pyproject_contents requirement_key path_hint in
    let poetry_main := Extract.Poetry.parse_main_dependencies path_hint in
    let poetry_group := Extract.Poetry.parse_group_dependencies path_hint in
    let poetry_extra :=
      Extract.Poetry.parse_extra_dependencies requirement_key path_hint in
    let pep621_main :=
      Extract.PEP621.parse_main_dependencies requirement_key path_hint in
    let pep621_optional :=
      Extract.PEP621.parse_optional_dependencies requirement_key
        path_hint in
    (forall config,
       match Py.raised (poetry config) with
       | None | Some (Py.InvalidRequirement _) => True
       | _ => False
       end
       /\ match Py.raised (pep621 config) with
          | None | Some (Py.InvalidRequirement _) => True
          | _ => False
          end)
    /\ (forall style config field,
          Extract.parse_field path_hint style config field
          = let g := snd field config in
            match Py.raised g with
            | Some (Py.KeyError _) =>
                Py.mkGenerator (Py.yielded g)
                  (Py.logged g
                   ++ [Py.LogField Py.DEBUG "find" style (fst field)
                         path_hint])
                  None
            | Some Py.TypeError | Some Py.AttributeError =>
                Py.mkGenerator (Py.yielded g)
                  (Py.logged g
                   ++ [Py.LogField Py.ERROR "parse" style (fst field)
                         path_hint])
                  None
            | _ => g
            end)
    /\ (forall config,
          Py.yielded (poetry config)
          = Py.yielded (poetry_main config)
            ++ Py.yielded (poetry_group config)
            ++ Py.yielded (poetry_extra config))
    /\ (forall config,
          Py.yielded (pep621 config)
          = Py.yielded (pep621_main config)
            ++ match Py.raised (pep621_main config) with
               | Some (Py.InvalidRequirement _)
               | Some (Py.DependencyParsingError _) => []
               | _ => Py.yielded (pep621_optional config)
               end)
    /\ (forall entries,
          (lookup "dependencies" entries = None ->
           poetry_main (Py.VDict entries)
           = Py.raise (Py.KeyError "dependencies"))
          /\ (lookup "group" entries = None ->
              poetry_group (Py.VDict entries)
              = Py.raise (Py.KeyError "group"))
          /\ (lookup "extras" entries = None ->
              poetry_extra (Py.VDict entries)
              = Py.raise (Py.KeyError "extras"))
          /\ (lookup "project" entries = None ->
              pep621_main (Py.VDict entries)
              = Py.raise (Py.KeyError "project")
              /\ pep621_optional (Py.VDict entries)
                 = Py.raise (Py.KeyError "project"))
          /\ (forall project,
                lookup "project" entries = Some (Py.VDict project) ->
                (lookup "dependencies" project = None ->
                 pep621_main (Py.VDict entries)
                 = Py.raise (Py.KeyError "dependencies"))
                /\ (lookup "optional-dependencies" project = None ->
                    pep621_optional (Py.VDict entries)
                    = Py.raise (Py.KeyError "optional-dependencies"))))
    /\ (forall entries project dependencies,
          lookup "project" entries = Some (Py.VDict project) ->
          lookup "dependencies" project = Some dependencies ->
          Py.isinstance_list dependencies = false ->
          pep621_main (Py.VDict entries) = Py.raise Py.TypeError)
    /\ (forall entries before name bad after,
          lookup "extras" entries
          = Some (Py.VDict (before ++ (name, bad) :: after)) ->
          Py.isinstance_list bad = false ->
          let read :=
            poetry_extra (Py.VDict [("extras", Py.VDict before)]) in
          Py.raised read = None ->
          poetry_extra (Py.VDict entries)
          = Py.mkGenerator (Py.yielded read) (Py.logged read)
              (Some Py.TypeError)).
Proof.
  intros requirement_key path_hint.
  cbv zeta. split; [|split; [|split; [|split; [|split; [|split]]]]].
  - intros config. split;
      [apply poetry_only_invalid | apply pep621_only_invalid].
  - intros style config field. apply parse_field_cases.
  - intros config. apply yielded_poetry.
  - intros config.
    unfold Extract.parse_pep621_pyproject_contents, Extract.parse_fields,
      Extract.PEP621.fields_parsers.
    cbn [Py.for_each]. rewrite seq_pass_r.
    pose proof (raised_parse_field path_hint "PEP621" config
                  ("main",
                   Extract.PEP621.parse_main_dependencies requirement_key
                     path_hint)) as Hr.
    pose proof (yielded_parse_field path_hint "PEP621" config
                  ("main",
                   Extract.PEP621.parse_main_dependencies requirement_key
                     path_hint)) as Hy.
    cbn [snd] in Hr, Hy.
    destruct (Py.raised
                (Extract.PEP621.parse_main_dependencies requirement_key
                   path_hint config)) as [[k| | |line|v]|] eqn:Hmain;
      try (rewrite yielded_seq by exact Hr;
           now rewrite Hy, yielded_parse_field).
    + rewrite (seq_raised _ _ Hr), Hy. now rewrite app_nil_r.
    + rewrite (seq_raised _ _ Hr), Hy. now rewrite app_nil_r.
  - intros entries. split; [|split; [|split; [|split]]];
      [intros H|intros H|intros H|intros H; split|
       intros project Hproject; split; intros H].
    + unfold Extract.Poetry.parse_main_dependencies, Py.eval, Py.getitem.
      now rewrite H.
    + unfold Extract.Poetry.parse_group_dependencies, Py.eval, Py.getitem.
      now rewrite H.
    + unfold Extract.Poetry.parse_extra_dependencies, Py.eval, Py.getitem.
      now rewrite H.
    + unfold Extract.PEP621.parse_main_dependencies, Py.eval, Py.getitem.
      now rewrite H.
    + unfold Extract.PEP621.parse_optional_dependencies, Py.eval,
        Py.getitem.
      now rewrite H.
    + unfold Extract.PEP621.parse_main_dependencies, Py.eval, Py.getitem.
      now rewrite Hproject, H.
    + unfold Extract.PEP621.parse_optional_dependencies, Py.eval,
        Py.getitem.
      now rewrite Hproject, H.
  - intros entries project dependencies Hproject Hdeps Hshape.
    unfold Extract.PEP621.parse_main_dependencies, Py.eval, Py.getitem.
    now rewrite Hproject, Hdeps, Hshape.
  - intros entries before name bad after Hextras Hbad Hbefore.
    exact (@extra_stops_at_bad_value requirement_key path_hint entries
             before name bad after Hextras Hbad Hbefore).
Qed.

(** The extras [a = ["x"]] and [b = "y"]. *)
Lemma pyproject_field_errors_are_contained_witness :
  Extract.Poetry.parse_extra_dependencies PkgResources.name_only_key
    Examples.pyproject_toml Examples.poetry_with_bad_extra
  = Py.mkGenerator [Examples.dep "x" Examples.pyproject_toml] []
      (Some Py.TypeError).
Proof.
  destruct (pyproject_field_errors_are_contained PkgResources.name_only_key
              Examples.pyproject_toml) as (_ & _ & _ & _ & _ & _ & H).
  exact (H Examples.poetry_with_bad_extra_items
           [("a", Py.VList [Py.VStr "x"])] "b" (Py.VStr "y") []
           eq_refl eq_refl eq_refl).
Defined.


(** The claim fails on an extra that is not a list after one that is: the
    field's results are not dropped, the record of the first extra
    stays. *)
Lemma poetry_extras_before_bad_value_are_kept :
  Extract.parse_poetry_pyproject_dependencies PkgResources.name_only_key
    Examples.pyproject_toml Examples.poetry_with_bad_extra
  = Py.mkGenerator
      [ Examples.dep "requests" Examples.pyproject_toml;
        Examples.dep "x" Examples.pyproject_toml ]
      [ Py.LogField Py.DEBUG "find" "Poetry" "group"
          Examples.pyproject_toml;
        Py.LogField Py.ERROR "parse" "Poetry" "extra"
          Examples.pyproject_toml ]
      None.
Proof. reflexivity. Qed.

(** [dependencies] that is not a list: an error record, no record of the
    field, and the optional dependencies are read. *)
Example pep621_dependencies_not_a_list :
  Extract.parse_pep621_pyproject_contents PkgResources.name_only_key
    Examples.pyproject_toml Examples.pep621_with_bad_dependencies
  = Py.mkGenerator [Examples.dep "pytest" Examples.pyproject_toml]
      [ Py.LogField Py.ERROR "parse" "PEP621" "main"
          Examples.pyproject_toml ]
      None.
Proof. reflexivity. Qed.

(** C8 (as amended). When [dependencies] of the Poetry table is a
    mapping, its parser yields one record for every key other than
    ["python"], in the order of the mapping, named by the key, and raises
    and logs nothing; no record is named ["python"], every other key names
    a record and, the keys of a mapping being distinct, exactly one; these
    records are the first the Poetry loop yields. In the result for the
    whole file they follow the records of the PEP 621 fields when those
    ended without exception; when a PEP 621 requirement is no specifier,
    its [InvalidRequirement] ends the parser before the Poetry table is
    read, and the result is that of the PEP 621 fields alone. *)
Theorem poetry_main_dependencies_skip_python :
  forall requirement_key path_hint entries dependencies,
    lookup "dependencies" entries = Some (Py.VDict dependencies) ->
    let main :=
      Extract.Poetry.parse_main_dependencies path_hint (Py.VDict entries) in
    let names :=
      filter (fun k => negb (String.eqb k "python"))
        (map fst dependencies) in
    main
    = Py.mkGenerator (map (fun k => mkDeclaredDependency k path_hint) names)
        [] None
    /\ ~ In "python" (map dep_name (Py.yielded main))
    /\ (forall k, In k (map fst dependencies) -> k <> "python" ->
                  In k (map dep_name (Py.yielded main)))
    /\ (NoDup (map fst dependencies) ->
        forall k, In k (map fst dependencies) -> k <> "python" ->
                  count_occ string_dec (map dep_name (Py.yielded main)) k
                  = 1)
    /\ (exists rest,
          Py.yielded
            (Extract.parse_poetry_pyproject_dependencies requirement_key
               path_hint (Py.VDict entries))
          = Py.yielded main ++ rest)
    /\ (forall parsed_contents tool,
          lookup "tool" parsed_contents = Some (Py.VDict tool) ->
          lookup "poetry" tool = Some (Py.VDict entries) ->
          let pep621 :=
            Extract.parse_pep621_pyproject_contents requirement_key
              path_hint (Py.VDict parsed_contents) in
          let whole :=
            Extract.parse_pyproject_contents requirement_key path_hint
              parsed_contents in
          match Py.raised pep621 with
          | None =>
              exists rest,
                Py.yielded whole
                = Py.yielded pep621 ++ Py.yielded main ++ rest
          | Some e =>
              (exists line, e = Py.InvalidRequirement line)
              /\ whole = pep621
          end).
Proof.
  intros requirement_key path_hint entries dependencies Hdeps main names.
  assert (main
          = Py.mkGenerator
              (map (fun k => mkDeclaredDependency k path_hint) names)
              [] None) as Hmain.
  { subst main names.
    unfold Extract.Poetry.parse_main_dependencies, Py.eval, Py.getitem.
    rewrite Hdeps. simpl. apply for_each_yield_unless_python. }
  assert (map dep_name (Py.yielded main) = names) as Hnames.
  { rewrite Hmain. simpl. rewrite map_map. simpl. apply map_id. }
  split; [exact Hmain|]. rewrite Hnames.
  split; [|split; [|split; [|split]]].
  - subst names. intros Hin. apply filter_In in Hin as [_ Hin].
    discriminate Hin.
  - intros k Hk Hne. subst names. apply filter_In. split; [assumption|].
    apply negb_true_iff. now apply String.eqb_neq.
  - intros Hnd k Hk Hne.
    assert (In k names) as Hin.
    { subst names. apply filter_In. split; [assumption|].
      apply negb_true_iff. now apply String.eqb_neq. }
    assert (NoDup names) as Hnd' by (subst names; now apply NoDup_filter).
    apply (count_occ_In string_dec) in Hin.
    pose proof (proj1 (NoDup_count_occ string_dec names) Hnd' k). lia.
  - eexists. subst main. apply yielded_poetry.
  - intros parsed_contents tool Htool Hpoetry pep621 whole.
    pose proof (pep621_only_invalid requirement_key path_hint
                  (Py.VDict parsed_contents)) as Honly.
    fold pep621 in Honly.
    destruct (Py.raised pep621) as [e|] eqn:Hpep621.
    + split.
      * destruct e as [k| | |line|v]; try now destruct Honly.
        now exists line.
      * subst whole. unfold Extract.parse_pyproject_contents.
        fold pep621. now apply seq_raised with (e := e).
    + eexists. subst whole.
      unfold Extract.parse_pyproject_contents, Py.dict_get.
      rewrite Htool.
      unfold Py.contains, Py.eval at 1. rewrite Hpoetry.
      unfold Py.getitem, Py.eval. rewrite Htool, Hpoetry.
      rewrite yielded_seq by exact Hpep621.
      fold pep621. f_equal. subst main. apply yielded_poetry.
Qed.

(** [python] and [requests] under [tool.poetry.dependencies]. *)
Lemma poetry_main_dependencies_skip_python_witness :
  Extract.Poetry.parse_main_dependencies Examples.pyproject_toml
    (Py.VDict
       [ ("dependencies",
          Py.VDict [ ("python", Py.VStr "^3.8");
                     ("requests", Py.VStr "^2") ]) ])
  = Py.mkGenerator [Examples.dep "requests" Examples.pyproject_toml] []
      None.
Proof.
  exact (proj1 (@poetry_main_dependencies_skip_python
                  PkgResources.name_only_key Examples.pyproject_toml
                  [ ("dependencies",
                     Py.VDict [ ("python", Py.VStr "^3.8");
                                ("requests", Py.VStr "^2") ]) ]
                  _ eq_refl)).
Defined.

(** The claim fails on a file whose PEP 621 [dependencies] hold a string
    that is no specifier: the Poetry table is a mapping with the key
    [requests], and no record is named [requests]. *)
Lemma poetry_keys_after_invalid_requirement :
  Extract.parse_pyproject_contents PkgResources.name_only_key
    Examples.pyproject_toml Examples.poetry_after_invalid_requirement
  = Py.mkGenerator [Examples.dep "a" Examples.pyproject_toml] []
      (Some (Py.InvalidRequirement "==1")).
Proof. reflexivity. Qed.

(** A file with [python] and [requests] under
    [tool.poetry.dependencies] declares [requests] alone. *)
Example pyproject_poetry_python_excluded :
  Extract.parse_pyproject_contents PkgResources.name_only_key
    Examples.pyproject_toml Examples.poetry_main_only
  = Py.mkGenerator [Examples.dep "requests" Examples.pyproject_toml]
      [ Py.LogField Py.DEBUG "find" "PEP621" "main" Examples.pyproject_toml;
        Py.LogField Py.DEBUG "find" "PEP621" "optional"
          Examples.pyproject_toml;
        Py.LogField Py.DEBUG "find" "Poetry" "group"
          Examples.pyproject_toml;
        Py.LogField Py.DEBUG "find" "Poetry" "extra"
          Examples.pyproject_toml ]
      None.
Proof. reflexivity. Qed.

Section PoetryGroups.
Import Py.
Variable path_hint : Location.

Local Abbreviation group :=
  (Extract.Poetry.parse_group_dependencies path_hint).

Lemma group_of_entries (entries : list (string * value)) groups :
  lookup "group" entries = Some (VDict groups) ->
  group (VDict entries) = group (VDict [("group", VDict groups)]).
Proof.
  intros H. unfold Extract.Poetry.parse_group_dependencies, eval, getitem.
  rewrite H. reflexivity.
Qed.
End PoetryGroups.

(** C9. A group table without [dependencies] ends the reading of the
    groups with [KeyError]: the records of the groups before it are
    yielded, none of this group or of a later one, and the loop over the
    fields records it as a field that was not found, at debug level, with
    no error record. *)
Theorem poetry_group_without_dependencies_ends_field :
  forall path_hint entries before name table after,
    lookup "group" entries
    = Some (Py.VDict (before ++ (name, Py.VDict table) :: after)) ->
    lookup "dependencies" table = None ->
    let group := Extract.Poetry.parse_group_dependencies path_hint in
    let read := group (Py.VDict [("group", Py.VDict before)]) in
    Py.raised read = None ->
    group (Py.VDict entries)
    = Py.mkGenerator (Py.yielded read) []
        (Some (Py.KeyError "dependencies"))
    /\ Extract.parse_field path_hint "Poetry" (Py.VDict entries)
         ("group", group)
       = Py.mkGenerator (Py.yielded read)
           [Py.LogField Py.DEBUG "find" "Poetry" "group" path_hint] None.
Proof.
  intros path_hint entries before name table after Hgroup Htable group read
    Hread.
  assert (group (Py.VDict entries)
          = Py.mkGenerator (Py.yielded read) []
              (Some (Py.KeyError "dependencies"))) as Hg.
  { subst group read. rewrite (group_of_entries _ _ Hgroup).
    pose proof (proj1 (group_cases path_hint
                         (Py.VDict [("group", Py.VDict before)]))) as Hlog.
    unfold Extract.Poetry.parse_group_dependencies, Py.eval in *.
    simpl in *. rewrite map_app, for_each_app. cbn [map Py.for_each snd].
    unfold Py.getitem at 2. rewrite Htable.
    set (b := Py.for_each (map snd before) _) in *.
    unfold Py.seq at 1. rewrite Hread.
    unfold Py.seq, Py.raise. simpl. now rewrite Hlog, !app_nil_r. }
  split; [exact Hg|].
  rewrite parse_field_cases. cbn [snd fst]. cbv zeta. now rewrite Hg.
Qed.

(** The groups [dev], [docs] (without dependencies) and [lint]. *)
Lemma poetry_group_without_dependencies_ends_field_witness :
  let group :=
    Extract.Poetry.parse_group_dependencies Examples.pyproject_toml in
  group Examples.poetry_with_empty_group
  = Py.mkGenerator [Examples.dep "pytest" Examples.pyproject_toml] []
      (Some (Py.KeyError "dependencies"))
  /\ Extract.parse_field Examples.pyproject_toml "Poetry"
       Examples.poetry_with_empty_group ("group", group)
     = Py.mkGenerator [Examples.dep "pytest" Examples.pyproject_toml]
         [ Py.LogField Py.DEBUG "find" "Poetry" "group"
             Examples.pyproject_toml ]
         None.
Proof.
  exact (@poetry_group_without_dependencies_ends_field
           Examples.pyproject_toml Examples.poetry_with_empty_group_items
           [ ("dev",
              Py.VDict
                [("dependencies", Py.VDict [("pytest", Py.VStr "*")])]) ]
           "docs" [("optional", Py.VScalar "true")]
           [ ("lint",
              Py.VDict
                [("dependencies", Py.VDict [("black", Py.VStr "*")])]) ]
           eq_refl eq_refl eq_refl).
Defined.

(** The fields around the groups are read all the same. *)
Example poetry_group_without_dependencies :
  Extract.parse_poetry_pyproject_dependencies PkgResources.name_only_key
    Examples.pyproject_toml Examples.poetry_with_empty_group
  = Py.mkGenerator
      [ Examples.dep "pytest" Examples.pyproject_toml;
        Examples.dep "x" Examples.pyproject_toml ]
      [ Py.LogField Py.DEBUG "find" "Poetry" "main" Examples.pyproject_toml;
        Py.LogField Py.DEBUG "find" "Poetry" "group"
          Examples.pyproject_toml ]
      None.
Proof. reflexivity. Qed.

(* ================================================================== *)
(** * The setup.py parser: the elements of a list *)

Section ListElements.
Import Py.
Variable requirement_key : string -> option string.
Variable path_hint : Location.

Local Abbreviation bottom :=
  (Extract._extract_deps_from_bottom_level_list requirement_key path_hint).

(** An element that is no constant (a name, a call, an f-string) is
    skipped without a record or a log record. *)
Lemma non_constant_element_is_skipped element elts ctx :
  (forall v, element <> Constant v) ->
  bottom (List (element :: elts) ctx) = bottom (List elts ctx).
Proof.
  intros H. cbn [Extract._extract_deps_from_bottom_level_list for_each].
  destruct element; try apply seq_pass_l. now destruct (H value0).
Qed.

(** A constant that is a number, a boolean or [None] is not skipped: the
    requirement parser is called on it and raises [TypeError]. *)
Lemma scalar_element_raises repr elts ctx :
  bottom (List (Constant (VScalar repr) :: elts) ctx) = raise TypeError.
Proof. reflexivity. Qed.
End ListElements.

(** C10 (the code at the failing input). [install_requires=[5, "a"]]:
    the number is not skipped, [TypeError] leaves the parser, and ["a"]
    gives no record. *)
Lemma number_in_install_requires_raises :
  forall requirement_key path_hint,
    Extract.parse_setup_contents requirement_key path_hint
      Examples.setup_with_number
    = Py.mkGenerator [] [] (Some Py.TypeError).
Proof. reflexivity. Qed.

(* ================================================================== *)
(** * Two more runs of the pyproject.toml parser *)

(** [tool = "poetry"]: the membership test succeeds on the string, and the
    subscript after it raises outside every [try]. *)
Example pyproject_tool_is_a_string :
  Extract.parse_pyproject_contents PkgResources.name_only_key
    Examples.pyproject_toml [("tool", Py.VStr "poetry")]
  = Py.mkGenerator []
      [ Py.LogField Py.DEBUG "find" "PEP621" "main" Examples.pyproject_toml;
        Py.LogField Py.DEBUG "find" "PEP621" "optional"
          Examples.pyproject_toml ]
      (Some Py.TypeError).
Proof. reflexivity. Qed.

(** An optional-dependencies group that is a string is iterated character
    by character. *)
Example pep621_optional_group_is_a_string :
  Extract.parse_pep621_pyproject_contents PkgResources.name_only_key
    Examples.pyproject_toml
    (Py.VDict
       [ ("project",
          Py.VDict
            [("optional-dependencies", Py.VDict [("test", Py.VStr "ab")])]) ])
  = Py.mkGenerator
      [ Examples.dep "a" Examples.pyproject_toml;
        Examples.dep "b" Examples.pyproject_toml ]
      [ Py.LogField Py.DEBUG "find" "PEP621" "main"
          Examples.pyproject_toml ]
      None.
Proof. reflexivity. Qed.

(* ================================================================== *)
(** * What every parser keeps: the location of its records *)

Section Yields.
Import Py.
Variable A : Type.
Variable P : A -> Prop.
Implicit Types g : generator A.

Local Abbreviation yields := (fun g => Forall P (yielded g)).

Lemma yields_seq g1 g2 : yields g1 -> yields g2 -> yields (seq g1 g2).
Proof.
  unfold seq. intros H1 H2. destruct (raised g1); [exact H1|].
  simpl. apply Forall_app. now split.
Qed.

Lemma yields_for_each {B} (xs : list B) (body : B -> generator A) :
  (forall x, In x xs -> yields (body x)) -> yields (for_each xs body).
Proof.
  intros H. induction xs as [|x xs IH]; simpl; [constructor|].
  apply yields_seq; [apply H; now left|].
  apply IH. intros y Hy. apply H. now right.
Qed.

Lemma yields_try_except g handler :
  yields g ->
  (forall e h, handler e = Some h -> yields h) ->
  yields (try_except g handler).
Proof.
  intros Hg Hh. unfold try_except.
  destruct (raised g) as [e|]; [|exact Hg].
  destruct (handler e) as [h|] eqn:He; [|exact Hg].
  apply yields_seq; [exact Hg | exact (Hh e h He)].
Qed.

Lemma yields_eval {B} (r : result B) (k : B -> generator A) :
  (forall b, r = Ok b -> yields (k b)) -> yields (eval r k).
Proof. destruct r as [b|e]; simpl; [auto | constructor]. Qed.
End Yields.

Section Provenance.
Import Py.
Variable requirement_key : string -> option string.
Variable path_hint : Location.

Local Abbreviation here :=
  (fun g : generator DeclaredDependency =>
     Forall (fun d => dep_location d = path_hint) (yielded g)).

Lemma requirements_here text :
  here (Extract.parse_requirements_contents requirement_key path_hint text).
Proof.
  rewrite parse_requirements_contents_eq. cbv zeta. simpl.
  apply Forall_forall. intros d Hd.
  apply in_map_iff in Hd as [k [<- _]]. reflexivity.
Qed.

Lemma requirements_list_here (items : list value) :
  here (for_each items
          (Extract.parse_requirements_contents requirement_key path_hint)).
Proof. apply yields_for_each. intros item _. apply requirements_here. Qed.

Lemma iterated_here group :
  here (eval (iterate group)
          (fun items =>
             for_each items
               (Extract.parse_requirements_contents requirement_key
                  path_hint))).
Proof. apply yields_eval. intros items _. apply requirements_list_here. Qed.

Lemma bottom_here deps :
  here (Extract._extract_deps_from_bottom_level_list requirement_key
          path_hint deps).
Proof.
  destruct deps as [| | | | |elts ctx| |]; try constructor.
  cbn [Extract._extract_deps_from_bottom_level_list].
  apply yields_for_each. intros [| | | |v| | |] _; try constructor.
  apply requirements_here.
Qed.

Lemma extract_keyword_here arg value :
  here (Extract.extract_keyword requirement_key path_hint arg value).
Proof.
  unfold Extract.extract_keyword.
  destruct (Extract.eq_arg arg "install_requires"); [apply bottom_here|].
  destruct (Extract.eq_arg arg "extras_require"); [|constructor].
  destruct value as [| | | | | |ks vs|]; try constructor.
  apply yields_seq; [constructor|].
  apply yields_for_each. intros elements _.
  apply yields_seq; [constructor | apply bottom_here].
Qed.

Lemma setup_call_here node :
  here (Extract._extract_deps_from_setup_call requirement_key path_hint
          node).
Proof.
  destruct node as [| |func args keywords| | | | |]; try constructor.
  cbn [Extract._extract_deps_from_setup_call].
  apply yields_for_each. intros keyword _.
  apply yields_try_except; [apply extract_keyword_here|].
  intros [k| | |line|v] h; try discriminate.
  intros [= <-]. apply yields_seq; constructor.
Qed.

Lemma first_setup_call_here nodes :
  here (Extract.first_setup_call requirement_key path_hint nodes).
Proof.
  induction nodes as [|node nodes IH]; [constructor|].
  cbn [Extract.first_setup_call].
  destruct (Extract._is_setup_function_call node); [|exact IH].
  destruct node; try constructor. apply setup_call_here.
Qed.

Lemma yield_unless_python_here (names : list string) :
  here (for_each names (Extract.yield_unless_python path_hint)).
Proof.
  rewrite for_each_yield_unless_python. simpl.
  apply Forall_forall. intros d Hd.
  apply in_map_iff in Hd as [k [<- _]]. reflexivity.
Qed.

Lemma parse_fields_here style fields config :
  (forall field : string * Extract.field_parser,
      In field fields -> here (snd field config)) ->
  here (Extract.parse_fields path_hint style fields config).
Proof.
  intros H. apply yields_for_each. intros field Hfield.
  rewrite yielded_parse_field. now apply H.
Qed.

Lemma poetry_here config :
  here (Extract.parse_poetry_pyproject_dependencies requirement_key
          path_hint config).
Proof.
  apply parse_fields_here. intros field [<-|[<-|[<-|[]]]]; cbn [snd].
  - apply yields_eval. intros dependencies _.
    apply yields_eval. intros names _. apply yield_unless_python_here.
  - apply yields_eval. intros groups _.
    apply yields_eval. intros tables _.
    apply yields_for_each. intros group _.
    apply yields_eval. intros dependencies _.
    apply yields_eval. intros names _. apply yield_unless_python_here.
  - apply yields_eval. intros extras _.
    apply yields_eval. intros groups _.
    apply yields_for_each. intros group _.
    destruct (isinstance_list group); [apply iterated_here | constructor].
Qed.

Lemma pep621_here config :
  here (Extract.parse_pep621_pyproject_contents requirement_key path_hint
          config).
Proof.
  apply parse_fields_here. intros field [<-|[<-|[]]]; cbn [snd].
  - apply yields_eval. intros project _.
    apply yields_eval. intros dependencies _.
    destruct (isinstance_list dependencies);
      [apply iterated_here | constructor].
  - apply yields_eval. intros project _.
    apply yields_eval. intros optional _.
    apply yields_eval. intros groups _.
    apply yields_for_each. intros group _. apply iterated_here.
Qed.

Lemma pyproject_here parsed_contents :
  here (Extract.parse_pyproject_contents requirement_key path_hint
          parsed_contents).
Proof.
  unfold Extract.parse_pyproject_contents.
  apply yields_seq; [apply pep621_here|].
  apply yields_eval. intros has_poetry _.
  destruct has_poetry; [|constructor].
  apply yields_eval. intros tool _.
  apply yields_eval. intros poetry_config _. apply poetry_here.
Qed.
End Provenance.

(** X1. Every record a parser yields carries the [path_hint] the parser was
    called with, for the requirements parser on any value, the setup.py
    parser on any tree and the pyproject.toml parser on any document,
    however the run ends. *)
Theorem records_carry_the_path_hint :
  forall requirement_key path_hint,
    let here :=
      fun g : Py.generator DeclaredDependency =>
        forall d, In d (Py.yielded g) -> dep_location d = path_hint in
    (forall text,
       here (Extract.parse_requirements_contents requirement_key path_hint
               text))
    /\ (forall setup_contents,
          here (Extract.parse_setup_contents requirement_key path_hint
                  setup_contents))
    /\ (forall parsed_contents,
          here (Extract.parse_pyproject_contents requirement_key path_hint
                  parsed_contents)).
Proof.
  intros requirement_key path_hint here. subst here. cbv beta.
  split; [|split].
  - intros text. apply Forall_forall. apply requirements_here.
  - intros tree. apply Forall_forall. apply first_setup_call_here.
  - intros pc. apply Forall_forall. apply pyproject_here.
Qed.

(* ================================================================== *)
(** * The setup.py parser: how a run ends, and what it ignores *)

Section SetupEnds.
Import Py.
Variable requirement_key : string -> option string.
Variable path_hint : Location.

Local Abbreviation bottom :=
  (Extract._extract_deps_from_bottom_level_list requirement_key path_hint).
Local Abbreviation extract :=
  (Extract._extract_deps_from_setup_call requirement_key path_hint).
Local Abbreviation try_keyword :=
  (Extract.try_keyword requirement_key path_hint).

(** Inside the [try]: the requirement parser's exceptions, or the
    parser's own. *)
Local Abbreviation inside_try :=
  (fun e : option exn =>
     match e with
     | Some (KeyError _) | Some AttributeError => False
     | _ => True
     end).





(** A keyword without a branch of its own does nothing. *)
Lemma try_keyword_other keyword :
  ExtractMore.is_requirement_keyword keyword = false ->
  try_keyword keyword = pass.
Proof.
  unfold ExtractMore.is_requirement_keyword. intros H.
  apply orb_false_iff in H as [H1 H2].
  unfold Extract.try_keyword, Extract.extract_keyword.
  now rewrite H1, H2.
Qed.

Lemma extract_filter func args func' args' keywords :
  extract (Call func args keywords)
  = extract (Call func' args'
               (filter ExtractMore.is_requirement_keyword keywords)).
Proof.
  cbn [Extract._extract_deps_from_setup_call].
  induction keywords as [|keyword keywords IH]; [reflexivity|].
  cbn [filter for_each].
  destruct (ExtractMore.is_requirement_keyword keyword) eqn:Hk.
  - cbn [for_each]. now rewrite IH.
  - now rewrite (try_keyword_other _ Hk), seq_pass_l.
Qed.
End SetupEnds.


(** X3. Of a [setup()] call only the [install_requires] and
    [extras_require] keywords are read: the function called, the positional
    arguments and every other keyword (also [**kwargs], which has no name)
    can be changed or removed without changing what is yielded, logged or
    raised. *)
Theorem setup_call_reads_two_keywords :
  forall requirement_key path_hint func args keywords func' args',
    Extract._extract_deps_from_setup_call requirement_key path_hint
      (Py.Call func args keywords)
    = Extract._extract_deps_from_setup_call requirement_key path_hint
        (Py.Call func' args'
           (filter ExtractMore.is_requirement_keyword keywords)).
Proof. intros. apply extract_filter. Qed.



(* ================================================================== *)
(** * Groups of requirements are flattened *)

Section Flattening.
Import Py.
Variable A : Type.

Lemma for_each_concat {B} (ls : list (list B)) (body : B -> generator A) :
  for_each (List.concat ls) body = for_each ls (fun l => for_each l body).
Proof.
  induction ls as [|l ls IH]; [reflexivity|].
  cbn [List.concat for_each]. now rewrite for_each_app, IH.
Qed.

(** What a sequence yields and how it ends depends on nothing else of its
    parts. *)
Lemma seq_same_outcome (a a' b b' : generator A) :
  yielded a = yielded a' -> raised a = raised a' ->
  yielded b = yielded b' -> raised b = raised b' ->
  yielded (seq a b) = yielded (seq a' b')
  /\ raised (seq a b) = raised (seq a' b').
Proof.
  intros Hya Hra Hyb Hrb.
  destruct a as [ya la ra], a' as [ya' la' ra'], b as [yb lb rb],
    b' as [yb' lb' rb'].
  simpl in *. subst. unfold seq. simpl. destruct ra'; simpl; auto.
Qed.

Lemma log_then (r : log_record) (g : generator A) :
  yielded (seq (log r) g) = yielded g /\ raised (seq (log r) g) = raised g.
Proof. unfold seq. simpl. auto. Qed.
End Flattening.

(** X5. When every value of the [extras_require] mapping is a literal
    list, the mapping declares what one [install_requires] list holding the
    elements of all its values declares: the same records in the same
    order, ending the same way. The names of the extras play no part. *)
Theorem extras_require_is_flattened :
  forall requirement_key path_hint ks (lists : list (list Py.ast * Py.ast))
         ctx,
    let extras :=
      Extract.extract_keyword requirement_key path_hint
        (Some "extras_require")
        (Py.Dict ks (map (fun l => Py.List (fst l) (snd l)) lists)) in
    let flat :=
      Extract.extract_keyword requirement_key path_hint
        (Some "install_requires")
        (Py.List (List.concat (map fst lists)) ctx) in
    Py.yielded extras = Py.yielded flat
    /\ Py.raised extras = Py.raised flat.
Proof.
  intros requirement_key path_hint ks lists ctx extras flat.
  subst extras flat. unfold Extract.extract_keyword.
  cbn [Extract.eq_arg String.eqb Ascii.eqb Bool.eqb].
  cbn [Extract._extract_deps_from_bottom_level_list].
  rewrite for_each_concat.
  match goal with
  | |- Py.yielded (Py.seq (Py.log ?r) ?g) = _ /\ _ =>
      destruct (log_then r g) as [-> ->]
  end.
  induction lists as [|[elts c] lists [IHy IHr]]; [split; reflexivity|].
  cbn [map Py.for_each fst snd].
  apply seq_same_outcome; try assumption.
  - apply log_then.
  - apply log_then.
Qed.

(* ================================================================== *)
(** * The pyproject.toml parser on well-formed fields *)

Section WellFormedFields.
Import Py.
Variable requirement_key : string -> option string.
Variable path_hint : Location.

Local Abbreviation record := (fun k => mkDeclaredDependency k path_hint).
Local Abbreviation not_python := (fun k => negb (String.eqb k "python")).

Lemma group_tables_read (tables : list value) :
  forallb ExtractMore.has_dependencies tables = true ->
  for_each tables
    (fun group =>
       eval (getitem group "dependencies")
         (fun dependencies =>
            eval (dict_keys dependencies)
              (fun names =>
                 for_each names (Extract.yield_unless_python path_hint))))
  = mkGenerator
      (map record
         (filter not_python
            (flat_map ExtractMore.group_dependency_names tables)))
      [] None.
Proof.
  induction tables as [|group tables IH]; [reflexivity|].
  cbn [forallb]. intros H. apply andb_true_iff in H as [Hgroup Htables].
  cbn [for_each flat_map]. rewrite (IH Htables).
  destruct group as [s|b|r|items|table]; try discriminate Hgroup.
  cbn [ExtractMore.has_dependencies] in Hgroup.
  destruct (lookup "dependencies" table) as [[s|b|r|items|deps]|] eqn:Hl;
    try discriminate Hgroup.
  assert (ExtractMore.group_dependency_names (VDict table) = map fst deps)
    as -> by (cbn [ExtractMore.group_dependency_names]; now rewrite Hl).
  unfold getitem. rewrite Hl. cbn [eval dict_keys].
  rewrite for_each_yield_unless_python.
  unfold seq. cbn [raised yielded logged app].
  now rewrite filter_app, map_app.
Qed.

Lemma pep621_main_of_list entries project items :
  lookup "project" entries = Some (VDict project) ->
  lookup "dependencies" project = Some (VList items) ->
  Extract.PEP621.parse_main_dependencies requirement_key path_hint
    (VDict entries)
  = for_each items
      (Extract.parse_requirements_contents requirement_key path_hint).
Proof.
  intros Hproject Hdeps.
  unfold Extract.PEP621.parse_main_dependencies, eval, getitem.
  now rewrite Hproject, Hdeps.
Qed.

Lemma lists_flattened (groups : list (string * list value)) :
  for_each (map snd (map (fun g => (fst g, VList (snd g))) groups))
    (fun group =>
       eval (iterate group)
         (fun requirements =>
            for_each requirements
              (Extract.parse_requirements_contents requirement_key
                 path_hint)))
  = for_each (List.concat (map snd groups))
      (Extract.parse_requirements_contents requirement_key path_hint).
Proof.
  rewrite for_each_concat.
  induction groups as [|[name items] groups IH]; [reflexivity|].
  cbn [map for_each fst snd]. now rewrite IH.
Qed.

Lemma extras_lists_flattened (groups : list (string * list value)) :
  for_each (map snd (map (fun g => (fst g, VList (snd g))) groups))
    (fun group =>
       if isinstance_list group then
         eval (iterate group)
           (fun requirements =>
              for_each requirements
                (Extract.parse_requirements_contents requirement_key
                   path_hint))
       else raise TypeError)
  = for_each (List.concat (map snd groups))
      (Extract.parse_requirements_contents requirement_key path_hint).
Proof.
  rewrite for_each_concat.
  induction groups as [|[name items] groups IH]; [reflexivity|].
  cbn [map for_each fst snd]. now rewrite IH.
Qed.
End WellFormedFields.

(** X6. When every table under [tool.poetry.group] has a [dependencies]
    mapping, the group field yields one record for every key other than
    ["python"] of every group, group after group in the order of the
    document, named by the key as it is written, and logs and raises
    nothing. *)
Theorem poetry_groups_are_read_in_order :
  forall path_hint entries groups,
    lookup "group" entries = Some (Py.VDict groups) ->
    forallb ExtractMore.has_dependencies (map snd groups) = true ->
    Extract.Poetry.parse_group_dependencies path_hint (Py.VDict entries)
    = Py.mkGenerator
        (map (fun k => mkDeclaredDependency k path_hint)
           (filter (fun k => negb (String.eqb k "python"))
              (flat_map ExtractMore.group_dependency_names
                 (map snd groups))))
        [] None.
Proof.
  intros path_hint entries groups Hgroup Hgroups.
  unfold Extract.Poetry.parse_group_dependencies, Py.eval at 1, Py.getitem.
  rewrite Hgroup. cbn [Py.eval Py.dict_values].
  now apply group_tables_read.
Qed.

Lemma poetry_groups_are_read_in_order_witness :
  Extract.Poetry.parse_group_dependencies Examples.pyproject_toml
    (Py.VDict
       [ ("group",
          Py.VDict
            [ ("dev",
               Py.VDict
                 [ ("optional", Py.VScalar "true");
                   ("dependencies",
                    Py.VDict [ ("pytest", Py.VStr "*");
                               ("python", Py.VStr "^3.8") ]) ]);
              ("lint",
               Py.VDict
                 [("dependencies", Py.VDict [("Black", Py.VStr "*")])]) ])
       ])
  = Py.mkGenerator
      [ Examples.dep "pytest" Examples.pyproject_toml;
        Examples.dep "Black" Examples.pyproject_toml ] [] None.
Proof.
  erewrite poetry_groups_are_read_in_order.
  2: reflexivity. 2: reflexivity. reflexivity.
Defined.

(** X7. The optional-dependencies of PEP 621 and the extras of Poetry are
    flattened: when every group is a list, the field yields, logs and
    raises what the [dependencies] list of PEP 621 does that holds the
    items of all groups in order. The names of the groups play no part. *)
Theorem requirement_groups_are_flattened :
  forall requirement_key path_hint (groups : list (string * list Py.value))
         main_entries main_project,
    lookup "project" main_entries = Some (Py.VDict main_project) ->
    lookup "dependencies" main_project
    = Some (Py.VList (List.concat (map snd groups))) ->
    let lists := map (fun g => (fst g, Py.VList (snd g))) groups in
    let main :=
      Extract.PEP621.parse_main_dependencies requirement_key path_hint
        (Py.VDict main_entries) in
    (forall entries project,
       lookup "project" entries = Some (Py.VDict project) ->
       lookup "optional-dependencies" project = Some (Py.VDict lists) ->
       Extract.PEP621.parse_optional_dependencies requirement_key path_hint
         (Py.VDict entries)
       = main)
    /\ (forall entries,
          lookup "extras" entries = Some (Py.VDict lists) ->
          Extract.Poetry.parse_extra_dependencies requirement_key path_hint
            (Py.VDict entries)
          = main).
Proof.
  intros requirement_key path_hint groups main_entries main_project
    Hproject Hdeps lists main.
  subst main.
  rewrite (@pep621_main_of_list requirement_key path_hint main_entries
             main_project _ Hproject Hdeps).
  split.
  - intros entries project Hp Ho.
    unfold Extract.PEP621.parse_optional_dependencies, Py.eval at 1,
      Py.getitem.
    rewrite Hp. unfold Py.eval at 1. rewrite Ho.
    cbn [Py.eval Py.dict_values]. apply lists_flattened.
  - intros entries He.
    unfold Extract.Poetry.parse_extra_dependencies, Py.eval at 1,
      Py.getitem.
    rewrite He. cbn [Py.eval Py.dict_values]. apply extras_lists_flattened.
Qed.

Lemma requirement_groups_are_flattened_witness :
  let main :=
    Extract.PEP621.parse_main_dependencies PkgResources.name_only_key
      Examples.pyproject_toml
      (Py.VDict
         [ ("project",
            Py.VDict
              [ ("dependencies",
                 Py.VList [Py.VStr "pytest"; Py.VStr "hypothesis>=6";
                           Py.VStr "sphinx"]) ]) ]) in
  Extract.PEP621.parse_optional_dependencies PkgResources.name_only_key
    Examples.pyproject_toml
    (Py.VDict
       [ ("project",
          Py.VDict
            [ ("name", Py.VStr "example");
              ("optional-dependencies",
               Py.VDict
                 [ ("test", Py.VList [Py.VStr "pytest";
                                      Py.VStr "hypothesis>=6"]);
                   ("docs", Py.VList [Py.VStr "sphinx"]) ]) ]) ])
  = main
  /\ Extract.Poetry.parse_extra_dependencies PkgResources.name_only_key
       Examples.pyproject_toml
       (Py.VDict
          [ ("extras",
             Py.VDict
               [ ("test", Py.VList [Py.VStr "pytest";
                                    Py.VStr "hypothesis>=6"]);
                 ("docs", Py.VList [Py.VStr "sphinx"]) ]) ])
     = main.
Proof.
  destruct (@requirement_groups_are_flattened PkgResources.name_only_key
              Examples.pyproject_toml
              [ ("test", [Py.VStr "pytest"; Py.VStr "hypothesis>=6"]);
                ("docs", [Py.VStr "sphinx"]) ]
              [ ("project",
                 Py.VDict
                   [ ("dependencies",
                      Py.VList [Py.VStr "pytest"; Py.VStr "hypothesis>=6";
                                Py.VStr "sphinx"]) ]) ]
              _ eq_refl eq_refl) as [Hoptional Hextras].
  split.
  - apply Hoptional with
      (project := [ ("name", Py.VStr "example");
                    ("optional-dependencies",
                     Py.VDict
                       [ ("test", Py.VList [Py.VStr "pytest";
                                            Py.VStr "hypothesis>=6"]);
                         ("docs", Py.VList [Py.VStr "sphinx"]) ]) ]);
      reflexivity.
  - apply Hextras. reflexivity.
Defined.

(* ================================================================== *)
(** * The pyproject.toml parser: the whole document *)

Section WholeDocument.
Import Py.
Variable requirement_key : string -> option string.
Variable path_hint : Location.
Variable parsed_contents : list (string * value).

Local Abbreviation pep621 :=
  (Extract.parse_pep621_pyproject_contents requirement_key path_hint
     (VDict parsed_contents)).
Local Abbreviation poetry :=
  (Extract.parse_poetry_pyproject_dependencies requirement_key path_hint).
Local Abbreviation whole :=
  (Extract.parse_pyproject_contents requirement_key path_hint
     parsed_contents).

(** The part after the PEP 621 fields. *)
Local Abbreviation poetry_part :=
  (eval (contains "poetry" (dict_get parsed_contents "tool" (VDict [])))
     (fun has_poetry : bool =>
        if has_poetry then
          eval (getitem (VDict parsed_contents) "tool")
            (fun tool =>
               eval (getitem tool "poetry") (fun config => poetry config))
        else log LogNoPoetry)).

Lemma whole_eq : whole = seq pep621 poetry_part.
Proof. reflexivity. Qed.

Lemma poetry_part_without_tool :
  lookup "tool" parsed_contents = None -> poetry_part = log LogNoPoetry.
Proof. intros H. unfold dict_get. now rewrite H. Qed.

Lemma poetry_part_of_table tool :
  lookup "tool" parsed_contents = Some (VDict tool) ->
  poetry_part
  = match lookup "poetry" tool with
    | Some config => poetry config
    | None => log LogNoPoetry
    end.
Proof.
  intros H. unfold dict_get, getitem. rewrite H. cbn [contains eval].
  now destruct (lookup "poetry" tool).
Qed.

Lemma poetry_part_of_other tool :
  lookup "tool" parsed_contents = Some tool ->
  (forall entries, tool <> VDict entries) ->
  poetry_part = raise TypeError \/ poetry_part = log LogNoPoetry.
Proof.
  intros H Htool. unfold dict_get, getitem. rewrite H.
  destruct tool as [s|b|r|items|entries]; cbn [contains eval].
  - destruct (is_substring "poetry" s); auto.
  - auto.
  - auto.
  - destruct (existsb _ items); auto.
  - now destruct (Htool entries).
Qed.

Lemma poetry_part_ends : requirement_exception (raised poetry_part).
Proof.
  destruct (lookup "tool" parsed_contents) as [tool|] eqn:Htool.
  - destruct tool as [s|b|r|items|entries].
    1-4: match goal with
         | H : lookup "tool" _ = Some ?t |- _ =>
             destruct (@poetry_part_of_other t H) as [-> | ->];
               [intros entries; discriminate | exact I | exact I]
         end.
    rewrite (poetry_part_of_table Htool).
    destruct (lookup "poetry" entries) as [config|]; [|exact I].
    pose proof (poetry_only_invalid requirement_key path_hint config) as H.
    now destruct (raised (poetry config)) as [[k| | |line|v]|].
  - now rewrite (poetry_part_without_tool Htool).
Qed.

Lemma whole_ends : requirement_exception (raised whole).
Proof.
  rewrite whole_eq, raised_seq.
  pose proof (pep621_only_invalid requirement_key path_hint
                (VDict parsed_contents)) as H.
  destruct (raised pep621) as [[k| | |line|v]|]; try contradiction;
    try exact I.
  apply poetry_part_ends.
Qed.
End WholeDocument.

(** X8. On every document the pyproject.toml parser ends without
    exception, with [InvalidRequirement] (a requirement string that is no
    specifier) or with [TypeError] (a [tool] value that is no table): no
    [KeyError] and no [AttributeError] ever leaves it, whatever keys are
    missing and whatever the shapes of the values. *)
Theorem parse_pyproject_contents_ends :
  forall requirement_key path_hint parsed_contents,
    Py.requirement_exception
      (Py.raised
         (Extract.parse_pyproject_contents requirement_key path_hint
            parsed_contents)).
Proof. intros. apply whole_ends. Qed.

(** X9. How the two styles compose. When the PEP 621 part raises, the
    Poetry fields are not looked at. Otherwise: without a [tool] table, or
    with one that has no [poetry] key, the result is that of the PEP 621
    part with one more debug record; with a [tool.poetry] value, the records
    of the Poetry fields follow those of the PEP 621 fields; with a [tool]
    value that is no table, no Poetry record is yielded and the parser
    either raises [TypeError] or logs the same debug record. *)
Theorem parse_pyproject_contents_composes :
  forall requirement_key path_hint parsed_contents,
    let pep621 :=
      Extract.parse_pep621_pyproject_contents requirement_key path_hint
        (Py.VDict parsed_contents) in
    let whole :=
      Extract.parse_pyproject_contents requirement_key path_hint
        parsed_contents in
    (forall e, Py.raised pep621 = Some e -> whole = pep621)
    /\ (Py.raised pep621 = None ->
        (lookup "tool" parsed_contents = None
         \/ exists tool,
             lookup "tool" parsed_contents = Some (Py.VDict tool)
             /\ lookup "poetry" tool = None) ->
        whole
        = Py.mkGenerator (Py.yielded pep621)
            (Py.logged pep621 ++ [Py.LogNoPoetry]) None)
    /\ (Py.raised pep621 = None ->
        forall tool config,
          lookup "tool" parsed_contents = Some (Py.VDict tool) ->
          lookup "poetry" tool = Some config ->
          let poetry :=
            Extract.parse_poetry_pyproject_dependencies requirement_key
              path_hint config in
          whole
          = Py.mkGenerator (Py.yielded pep621 ++ Py.yielded poetry)
              (Py.logged pep621 ++ Py.logged poetry) (Py.raised poetry))
    /\ (Py.raised pep621 = None ->
        forall tool,
          lookup "tool" parsed_contents = Some tool ->
          (forall entries, tool <> Py.VDict entries) ->
          whole
          = Py.mkGenerator (Py.yielded pep621) (Py.logged pep621)
              (Some Py.TypeError)
          \/ whole
             = Py.mkGenerator (Py.yielded pep621)
                 (Py.logged pep621 ++ [Py.LogNoPoetry]) None).
Proof.
  intros requirement_key path_hint parsed_contents pep621 whole.
  subst pep621 whole.
  split; [|split; [|split]].
  - intros e He. rewrite whole_eq. exact (seq_raised _ _ He).
  - intros Hnone Htool. rewrite whole_eq.
    assert (forall g : Py.generator DeclaredDependency,
              Py.raised g = None ->
              Py.seq g (Py.log Py.LogNoPoetry)
              = Py.mkGenerator (Py.yielded g)
                  (Py.logged g ++ [Py.LogNoPoetry]) None) as Hlog.
    { intros g Hg. unfold Py.seq. rewrite Hg. simpl.
      now rewrite app_nil_r. }
    destruct Htool as [Htool | [tool [Htool Hpoetry]]].
    + rewrite (poetry_part_without_tool _ _ _ Htool). now apply Hlog.
    + rewrite (poetry_part_of_table _ _ _ Htool), Hpoetry. now apply Hlog.
  - intros Hnone tool config Htool Hpoetry poetry. subst poetry.
    rewrite whole_eq, (poetry_part_of_table _ _ _ Htool), Hpoetry.
    unfold Py.seq. now rewrite Hnone.
  - intros Hnone tool Htool Hshape. rewrite whole_eq.
    destruct (@poetry_part_of_other requirement_key path_hint
                parsed_contents tool Htool Hshape) as [-> | ->];
      [left | right]; unfold Py.seq; rewrite Hnone; simpl;
      now rewrite ?app_nil_r.
Qed.

Lemma parse_pyproject_contents_composes_witness :
  let pep621 :=
    Extract.parse_pep621_pyproject_contents PkgResources.name_only_key
      Examples.pyproject_toml (Py.VDict Examples.poetry_main_only) in
  let poetry :=
    Extract.parse_poetry_pyproject_dependencies PkgResources.name_only_key
      Examples.pyproject_toml
      (Py.VDict
         [ ("dependencies",
            Py.VDict [ ("python", Py.VStr "^3.8");
                       ("requests", Py.VStr "^2") ]) ]) in
  Extract.parse_pyproject_contents PkgResources.name_only_key
    Examples.pyproject_toml Examples.poetry_main_only
  = Py.mkGenerator (Py.yielded pep621 ++ Py.yielded poetry)
      (Py.logged pep621 ++ Py.logged poetry) (Py.raised poetry).
Proof.
  destruct (parse_pyproject_contents_composes PkgResources.name_only_key
              Examples.pyproject_toml Examples.poetry_main_only)
    as (_ & _ & H & _).
  refine (H eq_refl _ _ _ _); reflexivity.
Defined.

(* ================================================================== *)
(** * The setup.cfg parser *)

Section SetupCfgFacts.
Import Py.
Variable requirement_key : string -> option string.
Variable path_hint : Location.
Variable parser : SetupCfg.ConfigParser.

(** What holds of a run at every point: the records are located at
    [path_hint] and the run has ended, if by an exception, by the
    requirement parser's for a line that is no specifier or by the one
    [get] raised for an option the function reads. *)
Local Abbreviation sound :=
  (fun r : SetupCfg.run =>
     Forall (fun d => dep_location d = path_hint) (SetupCfg.yielded r)
     /\ match SetupCfg.raised r with
        | None => True
        | Some (SetupCfg.Requirement e) =>
            exists line, e = InvalidRequirement line
        | Some (SetupCfg.Interpolation e) =>
            exists section option,
              SetupCfg.reads parser section option
              /\ SetupCfg.get parser section option = SetupCfg.Fails e
        end).

Lemma text_only_invalid text :
  match raised (Extract.parse_requirements_contents requirement_key
                  path_hint (VStr text)) with
  | None | Some (InvalidRequirement _) => True
  | _ => False
  end.
Proof.
  rewrite parse_requirements_contents_eq. cbv zeta. cbn [raised].
  rewrite parse_requirements_str.
  apply (raised_for_each
           (fun e => match e with
                     | None | Some (InvalidRequirement _) => True
                     | _ => False
                     end)); [exact I|].
  intros item _. now destruct (requirement_key item).
Qed.

Lemma sound_done : sound SetupCfg.done.
Proof. split; [constructor | exact I]. Qed.

Lemma sound_then r1 r2 : sound r1 -> sound r2 -> sound (SetupCfg.then_ r1 r2).
Proof.
  intros [H1 R1] [H2 R2]. unfold SetupCfg.then_.
  destruct (SetupCfg.raised r1) eqn:Hr;
    [rewrite Hr; exact (conj H1 R1)|].
  cbn [SetupCfg.yielded SetupCfg.raised]. split; [|exact R2].
  apply Forall_app. now split.
Qed.

Lemma sound_value record value :
  sound (SetupCfg.then_ (SetupCfg.debug record)
           (SetupCfg.parse_value requirement_key path_hint value)).
Proof.
  apply sound_then; [split; [constructor | exact I]|].
  unfold SetupCfg.parse_value, SetupCfg.yield_from.
  cbn [SetupCfg.yielded SetupCfg.raised].
  split; [apply requirements_here|].
  pose proof (text_only_invalid value) as H.
  destruct (raised (Extract.parse_requirements_contents requirement_key
                      path_hint (VStr value))) as [[k| | |line|v]|];
    first [now destruct H | now exists line | exact I].
Qed.

Lemma sound_for_options (options : list string) body :
  (forall option, In option options -> sound (body option)) ->
  sound (SetupCfg.for_options options body).
Proof.
  intros H. induction options as [|option options IH];
    [apply sound_done|].
  cbn [SetupCfg.for_options]. apply sound_then.
  - apply H. now left.
  - apply IH. intros o Ho. apply H. now right.
Qed.

Lemma option_listed option (options : list string) :
  SetupCfg.mem option options = true -> In option options.
Proof.
  unfold SetupCfg.mem. intros H. apply existsb_exists in H as (o & Ho & E).
  apply String.eqb_eq in E. now subst o.
Qed.

Lemma sound_option option :
  In option ["install_requires"; "extras_require"; "tests_require"] ->
  sound (SetupCfg.extract_option_from_section requirement_key path_hint
           parser "options" option).
Proof.
  intros Hoption. unfold SetupCfg.extract_option_from_section.
  destruct (lookup "options" (SetupCfg.sections parser)) as [options|]
    eqn:Hsection; [|apply sound_done].
  destruct (SetupCfg.mem option options) eqn:Hmem; [|apply sound_done].
  destruct (SetupCfg.get parser "options" option) as [value|e] eqn:Hget;
    [apply sound_value|].
  split; [constructor|]. cbn [SetupCfg.fail SetupCfg.raised].
  exists "options", option. split; [|exact Hget].
  split; [left; now split|].
  exists options. split; [exact Hsection | now apply option_listed].
Qed.

Lemma sound_section section :
  In section ["options.extras_require"; "options.tests_require"] ->
  sound (SetupCfg.extract_section requirement_key path_hint parser section).
Proof.
  intros Hsection. unfold SetupCfg.extract_section.
  destruct (lookup section (SetupCfg.sections parser)) as [options|]
    eqn:Hlookup; [|apply sound_done].
  apply sound_for_options. intros option Hoption.
  destruct (SetupCfg.get parser section option) as [value|e] eqn:Hget;
    [apply sound_value|].
  split; [constructor|]. cbn [SetupCfg.fail SetupCfg.raised].
  exists section, option. split; [|exact Hget].
  split; [now right|]. now exists options.
Qed.

Lemma whole_sound :
  sound (SetupCfg.parse_setup_cfg_contents requirement_key path_hint parser).
Proof.
  unfold SetupCfg.parse_setup_cfg_contents.
  repeat apply sound_then;
    first [ apply sound_option; simpl; tauto
          | apply sound_section; simpl; tauto ].
Qed.
End SetupCfgFacts.

(** X10. On every parser object the setup.cfg parser yields only records
    located at [path_hint], and it ends without exception, with the
    requirement parser's [InvalidRequirement] for a line that is no
    specifier, or with the [InterpolationError] that [get] raised for one
    of the options the function reads. A section or an option that is
    missing raises nothing: without the three sections nothing at all
    happens. An interpolation error ends the whole extraction: when [get]
    fails for [install_requires], the first option read, no record is
    yielded, whatever the other options hold. *)
Theorem parse_setup_cfg_contents_is_sound :
  forall requirement_key path_hint parser,
    let r :=
      SetupCfg.parse_setup_cfg_contents requirement_key path_hint parser in
    (forall d, In d (SetupCfg.yielded r) -> dep_location d = path_hint)
    /\ match SetupCfg.raised r with
       | None => True
       | Some (SetupCfg.Requirement e) =>
           exists line, e = Py.InvalidRequirement line
       | Some (SetupCfg.Interpolation e) =>
           exists section option,
             SetupCfg.reads parser section option
             /\ SetupCfg.get parser section option = SetupCfg.Fails e
       end
    /\ ((forall section,
           In section
             ["options"; "options.extras_require"; "options.tests_require"] ->
           lookup section (SetupCfg.sections parser) = None) ->
        r = SetupCfg.done)
    /\ (forall options e,
          lookup "options" (SetupCfg.sections parser) = Some options ->
          In "install_requires" options ->
          SetupCfg.get parser "options" "install_requires"
          = SetupCfg.Fails e ->
          r = SetupCfg.fail e).
Proof.
  intros requirement_key path_hint parser r.
  destruct (whole_sound requirement_key path_hint parser) as [Hy Hr].
  fold r in Hy, Hr.
  split; [now apply Forall_forall|split; [exact Hr|split]].
  - intros Hnone. subst r.
    unfold SetupCfg.parse_setup_cfg_contents,
      SetupCfg.extract_option_from_section, SetupCfg.extract_section.
    rewrite !Hnone by (simpl; tauto). reflexivity.
  - intros options e Hoptions Hin Hget. subst r.
    unfold SetupCfg.parse_setup_cfg_contents.
    unfold SetupCfg.extract_option_from_section at 1.
    rewrite Hoptions.
    assert (SetupCfg.mem "install_requires" options = true) as ->.
    { apply existsb_exists. exists "install_requires".
      split; [exact Hin | apply String.eqb_refl]. }
    rewrite Hget. reflexivity.
Qed.

(** The run on the example file: the option and the section form of
    [extras_require] are both read. *)
Example parse_setup_cfg_contents_example :
  SetupCfg.parse_setup_cfg_contents PkgResources.name_only_key
    SetupCfg.setup_cfg SetupCfg.example
  = SetupCfg.mkRun
      (map (fun name => Examples.dep name SetupCfg.setup_cfg)
         ["pandas"; "numpy"; "sphinx"; "pytest"; "hypothesis"])
      [ SetupCfg.DepsFoundOption "options" "install_requires"
          (Examples.LF ++ "pandas" ++ Examples.LF ++ "numpy>=1.0")%string;
        SetupCfg.DepsFoundOption "options" "extras_require" "sphinx";
        SetupCfg.DepsFoundSection "options.extras_require" "pytest";
        SetupCfg.DepsFoundSection "options.tests_require" "hypothesis" ]
      None.
Proof. reflexivity. Qed.

(** A value whose interpolation fails: the records of the option before
    it are kept, the options after it are not read. *)
Example parse_setup_cfg_contents_interpolation_error :
  SetupCfg.parse_setup_cfg_contents PkgResources.name_only_key
    SetupCfg.setup_cfg SetupCfg.example_with_percent
  = SetupCfg.mkRun [Examples.dep "pandas" SetupCfg.setup_cfg]
      [SetupCfg.DepsFoundOption "options" "install_requires" "pandas"]
      (Some (SetupCfg.Interpolation
               (SetupCfg.InterpolationSyntaxError "extras_require"
                  "options"))).
Proof. reflexivity. Qed.

(* ================================================================== *)
(** * What an experiment checks *)

Section Experiments.
Import Py.

Lemma names_of_items items names :
  Forall2 RealProjects.has_name items names ->
  RealProjects.names_of items = Ok (map VStr names).
Proof.
  induction 1 as [|imp n items names [entries [-> Hname]] _ IH];
    [reflexivity|].
  cbn [RealProjects.names_of getitem map]. rewrite Hname.
  cbn [RealProjects.hashable]. now rewrite IH.
Qed.

Lemma is_name_among names s :
  existsb (RealProjects.is_name s) (map VStr names) = true <-> In s names.
Proof.
  rewrite existsb_exists. split.
  - intros [v [Hv Hs]]. apply in_map_iff in Hv as [n [<- Hn]].
    apply String.eqb_eq in Hs. now subst.
  - intros Hs. exists (VStr s). split; [now apply in_map|].
    apply String.eqb_refl.
Qed.

Lemma is_expected expected n :
  existsb (fun s => RealProjects.is_name s (VStr n)) expected = true
  <-> In n expected.
Proof.
  rewrite existsb_exists. split.
  - intros [s [Hs Hn]]. apply String.eqb_eq in Hn. now subst.
  - intros Hn. exists n. split; [assumption | apply String.eqb_refl].
Qed.

Lemma same_set_iff expected names :
  RealProjects.same_set expected (map VStr names) = true
  <-> (forall n, In n expected <-> In n names).
Proof.
  unfold RealProjects.same_set.
  rewrite andb_true_iff, !forallb_forall. split.
  - intros [Hexp Hnames] n. split; intros Hn.
    + apply is_name_among. now apply Hexp.
    + apply is_expected. apply Hnames. now apply in_map.
  - intros H. split.
    + intros s Hs. apply is_name_among. now apply H.
    + intros v Hv. apply in_map_iff in Hv as [n [<- Hn]].
      apply is_expected. now apply H.
Qed.

Lemma and_then_passed c1 c2 :
  RealProjects.outcome (RealProjects.and_then c1 c2) = RealProjects.Passed
  <-> RealProjects.outcome c1 = RealProjects.Passed
      /\ RealProjects.outcome c2 = RealProjects.Passed.
Proof.
  unfold RealProjects.and_then.
  destruct (RealProjects.outcome c1) eqn:H1; simpl; rewrite ?H1;
    intuition congruence.
Qed.
End Experiments.

(** X12. An expectation that is absent or an empty list is not checked: an
    experiment whose four expectations are all absent or empty passes on
    every analysis, whatever it reports and also when it is not a mapping
    at all, and prints nothing. So an experiment cannot require that
    nothing be reported. *)
Theorem empty_expectations_check_nothing :
  forall self analysis,
    RealProjects.vacuous (RealProjects.imports self) = true ->
    RealProjects.vacuous (RealProjects.declared_deps self) = true ->
    RealProjects.vacuous (RealProjects.undeclared_deps self) = true ->
    RealProjects.vacuous (RealProjects.unused_deps self) = true ->
    RealProjects.verify_analysis_json self analysis
    = RealProjects.mkChecked [] RealProjects.Passed.
Proof.
  intros [name args description imports declared undeclared unused] analysis.
  cbn [RealProjects.imports RealProjects.declared_deps
       RealProjects.undeclared_deps RealProjects.unused_deps].
  intros Hi Hd Hu Hn. unfold RealProjects.verify_analysis_json.
  cbn [RealProjects.imports RealProjects.declared_deps
       RealProjects.undeclared_deps RealProjects.unused_deps
       RealProjects.name].
  destruct imports as [[|i imports]|]; try discriminate Hi;
  destruct declared as [[|d declared]|]; try discriminate Hd;
  destruct undeclared as [[|u undeclared]|]; try discriminate Hu;
  destruct unused as [[|n unused]|]; try discriminate Hn;
  reflexivity.
Qed.

Lemma empty_expectations_check_nothing_witness :
  RealProjects.verify_analysis_json
    (RealProjects.mkExperiment "all_empty" ["--detailed"] None
       (Some []) None (Some []) (Some []))
    (Py.VDict
       [ ("undeclared_deps", Py.VList [RealProjects.item "numpy"]);
         ("unused_deps", Py.VScalar "null") ])
  = RealProjects.mkChecked [] RealProjects.Passed.
Proof.
  apply empty_expectations_check_nothing; reflexivity.
Defined.

(** X13. A non-empty expectation is compared with the names the analysis
    reports under its key as sets: the check passes exactly when both
    hold the same names, whatever their order and however often a name is
    reported, and fails its [assert] otherwise. The whole verification
    passes exactly when its four checks pass. *)
Theorem expectations_are_compared_as_sets :
  (forall label experiment expected analysis key items names,
     expected <> [] ->
     Py.getitem analysis key = Py.Ok (Py.VList items) ->
     Forall2 RealProjects.has_name items names ->
     let c :=
       RealProjects.check_field label experiment (Some expected) analysis
         key in
     (RealProjects.outcome c = RealProjects.Passed
      <-> forall n, In n expected <-> In n names)
     /\ (RealProjects.outcome c = RealProjects.Passed
         \/ RealProjects.outcome c = RealProjects.AssertionError))
  /\ (forall self analysis,
        let check := fun label expected key =>
          RealProjects.outcome
            (RealProjects.check_field label (RealProjects.name self)
               expected analysis key) in
        RealProjects.outcome
          (RealProjects.verify_analysis_json self analysis)
        = RealProjects.Passed
        <-> check "imports" (RealProjects.imports self) "imports"
            = RealProjects.Passed
            /\ check "declared dependencies"
                 (RealProjects.declared_deps self) "declared_deps"
               = RealProjects.Passed
            /\ check "undeclared dependencies"
                 (RealProjects.undeclared_deps self) "undeclared_deps"
               = RealProjects.Passed
            /\ check "unused dependencies" (RealProjects.unused_deps self)
                 "unused_deps"
               = RealProjects.Passed).
Proof.
  split.
  - intros label experiment expected analysis key items names Hne Hkey
      Hitems c.
    assert (RealProjects.outcome c
            = if RealProjects.same_set expected (map Py.VStr names)
              then RealProjects.Passed else RealProjects.AssertionError)
      as Hc.
    { subst c. destruct expected as [|e expected]; [now destruct Hne|].
      unfold RealProjects.check_field, RealProjects.reported.
      rewrite Hkey. cbn [Py.iterate].
      now rewrite (names_of_items Hitems). }
    rewrite Hc. rewrite <- same_set_iff.
    destruct (RealProjects.same_set expected (map Py.VStr names)).
    + split; [tauto | now left].
    + split; [split; discriminate | now right].
  - intros self analysis check. subst check. cbv beta.
    unfold RealProjects.verify_analysis_json.
    rewrite !and_then_passed. tauto.
Qed.

Lemma expectations_are_compared_as_sets_witness :
  RealProjects.outcome
    (RealProjects.check_field "imports" "example"
       (Some ["numpy"; "pandas"])
       (Py.VDict
          [ ("imports",
             Py.VList [ RealProjects.item "pandas";
                        RealProjects.item "numpy";
                        RealProjects.item "pandas" ]) ])
       "imports")
  = RealProjects.Passed.
Proof.
  destruct expectations_are_compared_as_sets as [H _].
  apply (H "imports" "example" ["numpy"; "pandas"] _ "imports"
           [ RealProjects.item "pandas"; RealProjects.item "numpy";
             RealProjects.item "pandas" ]
           ["pandas"; "numpy"; "pandas"]).
  - discriminate.
  - reflexivity.
  - repeat constructor;
      (eexists; split; [reflexivity | reflexivity]).
  - intros n. simpl. tauto.
Defined.

(* ================================================================== *)
(** * The name of a cached tarball *)

Lemma prefix_append (s t : string) : String.prefix s (s ++ t) = true.
Proof.
  induction s as [|a s IH].
  - simpl. destruct t; reflexivity.
  - simpl. destruct (ascii_dec a a); [exact IH | contradiction].
Qed.

Lemma is_substring_append (s t : string) :
  Py.is_substring s (s ++ t) = true.
Proof.
  unfold Py.is_substring.
  destruct (s ++ t)%string as [|b u] eqn:Hst.
  - destruct s; [reflexivity | discriminate Hst].
  - cbn [String.index]. rewrite <- Hst, prefix_append. reflexivity.
Qed.

(** X14. The name under which a tarball is cached always contains the
    project's name, and naming is idempotent: a file name that is itself a
    tarball name is kept as it is. *)
Theorem tarball_name_contains_project :
  forall name filename,
    Py.is_substring name (RealProjects.tarball_name name filename) = true
    /\ RealProjects.tarball_name name
         (RealProjects.tarball_name name filename)
       = RealProjects.tarball_name name filename.
Proof.
  intros name filename.
  assert (Py.is_substring name (RealProjects.tarball_name name filename)
          = true) as H.
  { unfold RealProjects.tarball_name.
    destruct (Py.is_substring name filename) eqn:Hin; simpl.
    - exact Hin.
    - apply is_substring_append. }
  split; [exact H|].
  unfold RealProjects.tarball_name at 1. now rewrite H.
Qed.
